(** * Human-in-the-loop workflow ([graph.py]): model and properties

    The program wires three nodes ([bot], [tools], [human]) into a LangGraph
    state graph, runs it against a checkpointer keyed by thread id, and lets a
    second process answer the question on which the [human] node paused.

    The file embeds the functions of [graph.py] ([human_help], [chatbot],
    [human_node], [get_app], a turn of the loop of [run_chat], [run_admin])
    and the part of the libraries they call: Python values and [json],
    LangChain messages, and the LangGraph runtime (reducer, superstep loop,
    interrupt, checkpoints, [ToolNode], [tools_condition]).  The program is
    stated over any [json] module, language model and [ToolNode] error text;
    a concrete [json] codec and scripted models instantiate it.  What the
    program prints is kept only as the outcome of [run_admin] and the lines
    of [run_chat]. *)

From Stdlib Require Import String Ascii ZArith NArith List Bool Lia.
From Stdlib Require Import Floats.SpecFloat.
From stdpp Require Import gmap strings list fin_maps pretty.

(** ** Python strings

    A [str] value is a sequence of code points in [range(0x110000)], the
    surrogates [U+D800..U+DFFF] included.  The names, ids and message texts
    of the program stay Rocq strings, whose characters stand for the code
    points below 256; a literal enters a [str] value through [str]. *)

Record codepoint : Type := CodePoint {
  ord : N;
  ord_range : (ord <? 0x110000)%N = true
}.

Definition pystr : Type := list codepoint.

(** [chr(n)]; Python raises [ValueError] outside [range(0x110000)], where
    this is [U+0000]. *)
Definition chr (n : N) : codepoint :=
  match bool_dec (n <? 0x110000)%N true with
  | left H => CodePoint n H
  | right _ => CodePoint 0 eq_refl
  end.

Fixpoint str (s : string) : pystr :=
  match s with
  | EmptyString => []
  | String a s' => chr (N_of_ascii a) :: str s'
  end.

Coercion str : string >-> pystr.

Arguments str : simpl never.

Fixpoint pystr_eqb (a b : pystr) : bool :=
  match a, b with
  | [], [] => true
  | x :: a', y :: b' => (ord x =? ord y)%N && pystr_eqb a' b'
  | _, _ => false
  end.

(** ** Python values

    The values [json.loads] can return and [json.dumps] accepts.  A [float]
    is an IEEE-754 binary64 datum; a [dict] keeps its insertion order and has
    [str] keys. *)

#[local] Set Warnings "-register-all".

Inductive pyval : Type :=
| PNone
| PBool (b : bool)
| PInt (z : Z)
| PFloat (f : spec_float)
| PStr (s : pystr)
| PList (l : list pyval)
| PDict (d : list (pystr * pyval)).

(** Exceptions the modelled code can raise. *)
Inductive Exn : Type :=
| IndexError            (* [state["messages"][-1]] on an empty list *)
| JSONDecodeError       (* [json.loads] on a text that is not JSON *)
| AttributeError        (* [.get] on a value that is not a dict *)
| KeyError              (* [d["query"]] on a dict without that key *)
| TypeError             (* subscript on a value that is not a dict *)
| ValueError            (* prebuilt node applied to an unexpected state *)
| ModelError            (* the call to the language model failed *)
| GraphRecursionError.  (* the superstep limit was reached *)

(** [bool(v)]: Python truthiness. *)
Definition truthy (v : pyval) : bool :=
  match v with
  | PNone => false
  | PBool b => b
  | PInt z => negb (z =? 0)%Z
  | PFloat f => match f with S754_zero _ => false | _ => true end
  | PStr s => match s with [] => false | _ => true end
  | PList l => match l with [] => false | _ => true end
  | PDict d => match d with [] => false | _ => true end
  end.


(** Lookup in a dict. *)
Fixpoint dict_lookup (d : list (pystr * pyval)) (key : pystr) : option pyval :=
  match d with
  | [] => None
  | (k, v) :: d' => if pystr_eqb k key then Some v else dict_lookup d' key
  end.

(** [d[key] = v]: overwrite in place, or append a new key. *)
Fixpoint dict_set (d : list (pystr * pyval)) (key : pystr) (v : pyval)
  : list (pystr * pyval) :=
  match d with
  | [] => [(key, v)]
  | (k, w) :: d' =>
      if pystr_eqb k key then (k, v) :: d' else (k, w) :: dict_set d' key v
  end.

(** [v.get(key)]: [None] for a missing key; only dicts have the method. *)
Definition py_get (v : pyval) (key : pystr) : Exn + pyval :=
  match v with
  | PDict d => inr (default PNone (dict_lookup d key))
  | _ => inl AttributeError
  end.

(** [v[key]] with a [str] key. *)
Definition py_getitem (v : pyval) (key : pystr) : Exn + pyval :=
  match v with
  | PDict d => match dict_lookup d key with
               | Some x => inr x
               | None => inl KeyError
               end
  | _ => inl TypeError
  end.

(** ** LangChain messages *)

Record ToolCall : Type := {
  tc_name : string;
  tc_args : pyval;
  tc_id : string
}.

Inductive Message : Type :=
| SystemMessage (content : string)
| HumanMessage (content : string) (name : option string)
| AIMessage (content : string) (tool_calls : list ToolCall)
| ToolMessage (content : string) (name : string) (tool_call_id : string).

Definition msg_content (m : Message) : string :=
  match m with
  | SystemMessage c | HumanMessage c _ | AIMessage c _ | ToolMessage c _ _ => c
  end.

(** [msg.type] *)
Definition msg_type (m : Message) : string :=
  match m with
  | SystemMessage _ => "system"
  | HumanMessage _ _ => "human"
  | AIMessage _ _ => "ai"
  | ToolMessage _ _ _ => "tool"
  end.

(** [msg.name] *)
Definition msg_name (m : Message) : option string :=
  match m with
  | HumanMessage _ n => n
  | ToolMessage _ n _ => Some n
  | _ => None
  end.

Definition is_HumanMessage (m : Message) : bool :=
  match m with HumanMessage _ _ => true | _ => false end.

Definition is_ToolMessage (m : Message) : bool :=
  match m with ToolMessage _ _ _ => true | _ => false end.

(** The graph state: [TypedDict("State", {"messages": Annotated[list, add_messages]})].
    A node returns a value of the same shape, read as an update. *)
Record State : Type := { messages : list Message }.

(** [add_messages], the reducer of the [messages] channel.  Every message of
    this program enters the channel with a fresh id (user input and the
    resolution note get a new uuid, model and tool messages the id of their
    run), so the reducer never finds the id of a new message among the old
    ones and appends. *)
Definition add_messages (left right : list Message) : list Message :=
  left ++ right.

(** ** Nodes that can pause

    A node either returns an update, raises, or calls [interrupt(value)] and
    waits for the value the resuming caller supplies.  [Pause value k] is the
    node stopped at [interrupt(value)], with [k] the rest of its body. *)

Inductive Node (A : Type) : Type :=
| Return (a : A)
| Raise (e : Exn)
| Pause (value : pyval) (k : string -> Node A).

Arguments Return {A} a.
Arguments Raise {A} e.
Arguments Pause {A} value k.

Fixpoint node_bind {A B} (m : Node A) (f : A -> Node B) : Node B :=
  match m with
  | Return a => f a
  | Raise e => Raise e
  | Pause v k => Pause v (fun x => node_bind (k x) f)
  end.

#[global] Instance Node_ret : MRet Node := fun A a => Return a.
#[global] Instance Node_bind : MBind Node := fun A B f m => node_bind m f.

(** [interrupt(value)] *)
Definition interrupt (value : pyval) : Node string := Pause value Return.

(** Lift a computation that can only fail. *)
Definition try {A} (r : Exn + A) : Node A :=
  match r with inl e => Raise e | inr a => Return a end.

(** ** The [json] module

    [dumps] follows [json.encoder] with the default options ([ensure_ascii],
    separators [", "] and [": "]); [loads] follows [json.decoder] and
    [json.scanner].  The encoder writes ASCII, so the text it returns is a
    Rocq string as it stands; the decoder reads a Rocq string, a character
    above 127 standing for the code point of the same number, and returns
    [str] values over all code points.  Floats stay outside the codec: the
    decoder rejects a number with a fraction or an exponent and the
    constants [NaN] and [Infinity], and the printing of a float is a
    parameter of the encoder.  The decoder runs on fuel; the length of the
    text bounds both the nesting and the number of members it meets. *)

Module PyJson.

Definition dquote : ascii := "034"%char.
Definition backslash : ascii := "\"%char.

Definition hex_digit (n : N) : ascii :=
  ascii_of_N (if (n <? 10)%N then 48 + n else 87 + n).

(** ['\\u{0:04x}'.format(n)] for [n < 0x10000] *)
Definition escape_u (n : N) : string :=
  String backslash (String "u"
    (String (hex_digit (n / 4096)) (String (hex_digit (n / 256 mod 16))
    (String (hex_digit (n / 16 mod 16)) (String (hex_digit (n mod 16)) ""))))).

Definition is_high_surrogate (n : N) : bool := ((0xd800 <=? n) && (n <=? 0xdbff))%N.
Definition is_low_surrogate (n : N) : bool := ((0xdc00 <=? n) && (n <=? 0xdfff))%N.

(** [ESCAPE_DCT], and the replacement [ESCAPE_ASCII] applies to a character
    outside [' '..'~'] or equal to a quote or a backslash: the short escape
    when there is one, else [\uXXXX], as a surrogate pair above [U+FFFF]. *)
Definition escape_char (c : codepoint) : string :=
  let n := ord c in
  if (n =? 34)%N then String backslash (String dquote "")
  else if (n =? 92)%N then String backslash (String backslash "")
  else if (n =? 8)%N then String backslash "b"
  else if (n =? 12)%N then String backslash "f"
  else if (n =? 10)%N then String backslash "n"
  else if (n =? 13)%N then String backslash "r"
  else if (n =? 9)%N then String backslash "t"
  else if ((32 <=? n) && (n <=? 126))%N then String (ascii_of_N n) ""
  else if (n <? 0x10000)%N then escape_u n
  else
    let n := (n - 0x10000)%N in
    let s1 := N.lor 0xd800 (N.land (N.shiftr n 10) 0x3ff) in
    let s2 := N.lor 0xdc00 (N.land n 0x3ff) in
    escape_u s1 +:+ escape_u s2.

Fixpoint escape (s : pystr) : string :=
  match s with
  | [] => ""
  | c :: s' => escape_char c +:+ escape s'
  end.

(** [py_encode_basestring_ascii] *)
Definition encode_basestring_ascii (s : pystr) : string :=
  String dquote (escape s +:+ String dquote "").

Fixpoint join (sep : string) (l : list string) : string :=
  match l with
  | [] => ""
  | [x] => x
  | x :: l' => x +:+ sep +:+ join sep l'
  end.

Section Encoder.
(** [float.__repr__] *)
Variable float_repr : spec_float -> string.

Fixpoint dumps (v : pyval) : string :=
  match v with
  | PNone => "null"
  | PBool true => "true"
  | PBool false => "false"
  | PInt z => pretty z
  | PFloat f => float_repr f
  | PStr s => encode_basestring_ascii s
  | PList l => "[" +:+ join ", " (List.map dumps l) +:+ "]"
  | PDict d =>
      "{" +:+ join ", "
        (List.map (fun kv => encode_basestring_ascii (fst kv) +:+ ": " +:+ dumps (snd kv)) d)
      +:+ "}"
  end.
End Encoder.

(** [WHITESPACE = re.compile(r'[ \t\n\r]*')] *)
Definition is_ws (c : ascii) : bool :=
  let n := N_of_ascii c in
  ((n =? 32) || (n =? 9) || (n =? 10) || (n =? 13))%N.

Fixpoint skip_ws (s : string) : string :=
  match s with
  | String c s' => if is_ws c then skip_ws s' else s
  | "" => ""
  end.

Definition hex_value (c : ascii) : option N :=
  let n := N_of_ascii c in
  if ((48 <=? n) && (n <=? 57))%N then Some (n - 48)%N
  else if ((97 <=? n) && (n <=? 102))%N then Some (n - 87)%N
  else if ((65 <=? n) && (n <=? 70))%N then Some (n - 55)%N
  else None.

(** [_decode_uXXXX] *)
Definition decode_uXXXX (a b c d : ascii) : option N :=
  match hex_value a, hex_value b, hex_value c, hex_value d with
  | Some x, Some y, Some z, Some w => Some (((x * 16 + y) * 16 + z) * 16 + w)%N
  | _, _, _, _ => None
  end.

(** [BACKSLASH] *)
Definition unescape (e : ascii) : option ascii :=
  let n := N_of_ascii e in
  if (n =? 34)%N then Some dquote
  else if (n =? 92)%N then Some backslash
  else if (n =? 47)%N then Some "/"%char
  else if (n =? 98)%N then Some "008"%char
  else if (n =? 102)%N then Some "012"%char
  else if (n =? 110)%N then Some "010"%char
  else if (n =? 114)%N then Some "013"%char
  else if (n =? 116)%N then Some "009"%char
  else None.

Definition prepend (c : codepoint) (r : option (pystr * string)) : option (pystr * string) :=
  match r with
  | Some (x, rest) => Some (c :: x, rest)
  | None => None
  end.

(** The code point a high and a low surrogate stand for:
    [0x10000 + (((uni - 0xd800) << 10) | (uni2 - 0xdc00))]. *)
Definition join_pair (uni uni2 : N) : N :=
  (0x10000 + N.lor (N.shiftl (uni - 0xd800) 10) (uni2 - 0xdc00))%N.

(** [scanstring] in strict mode, entered after the opening quote: the
    decoded [str] and what follows the closing quote.  A [\uXXXX] escape of a
    high surrogate directly followed by one of a low surrogate is read as
    the one code point of the pair; any other escape of a surrogate is read
    as that surrogate. *)
Fixpoint scanstring (s : string) : option (pystr * string) :=
  match s with
  | "" => None
  | String c rest =>
      if Ascii.eqb c dquote then Some ([], rest)
      else if Ascii.eqb c backslash then
        match rest with
        | "" => None
        | String e rest1 =>
            if Ascii.eqb e "u" then
              match rest1 with
              | String h1 (String h2 (String h3 (String h4 rest2))) =>
                  match decode_uXXXX h1 h2 h3 h4 with
                  | Some uni =>
                      if is_high_surrogate uni then
                        match rest2 with
                        | String b rest2a =>
                            if Ascii.eqb b backslash then
                              match rest2a with
                              | String v rest2b =>
                                  if Ascii.eqb v "u" then
                                    match rest2b with
                                    | String g1 (String g2 (String g3 (String g4 rest3))) =>
                                        match decode_uXXXX g1 g2 g3 g4 with
                                        | Some uni2 =>
                                            if is_low_surrogate uni2
                                            then prepend (chr (join_pair uni uni2))
                                                   (scanstring rest3)
                                            else prepend (chr uni) (scanstring rest2)
                                        | None => None
                                        end
                                    | _ => None
                                    end
                                  else prepend (chr uni) (scanstring rest2)
                              | "" => None
                              end
                            else prepend (chr uni) (scanstring rest2)
                        | "" => None
                        end
                      else prepend (chr uni) (scanstring rest2)
                  | None => None
                  end
              | _ => None
              end
            else
              match unescape e with
              | Some ch => prepend (chr (N_of_ascii ch)) (scanstring rest1)
              | None => None
              end
        end
      else if (N_of_ascii c <? 32)%N then None
      else prepend (chr (N_of_ascii c)) (scanstring rest)
  end.



(** The text starts with the escape of a low surrogate. *)
Definition starts_low_escape (s : string) : bool :=
  match s with
  | String b rest2a =>
      if Ascii.eqb b backslash then
        match rest2a with
        | String v rest2b =>
            if Ascii.eqb v "u" then
              match rest2b with
              | String g1 (String g2 (String g3 (String g4 _))) =>
                  match decode_uXXXX g1 g2 g3 g4 with
                  | Some m => is_low_surrogate m
                  | None => false
                  end
              | _ => false
              end
            else false
        | "" => false
        end
      else false
  | "" => false
  end.


Definition is_digit (c : ascii) : bool :=
  let n := N_of_ascii c in ((48 <=? n) && (n <=? 57))%N.

(** The digits at the head of [s], accumulated in base ten. *)
Fixpoint scan_digits (acc : N) (s : string) : N * string :=
  match s with
  | String c s' =>
      if is_digit c then scan_digits (acc * 10 + (N_of_ascii c - 48))%N s'
      else (acc, s)
  | "" => (acc, "")
  end.

(** What may not follow the integer part of an [int] literal. *)
Definition starts_fraction (s : string) : bool :=
  match s with
  | String c _ => (Ascii.eqb c "." || Ascii.eqb c "e" || Ascii.eqb c "E")%bool
  | "" => false
  end.

(** [NUMBER_RE] restricted to integers: [0] or a digit string without a
    leading zero. *)
Definition scan_nat (s : string) : option (N * string) :=
  match s with
  | String c s' =>
      if Ascii.eqb c "0" then
        if starts_fraction s' then None else Some (0%N, s')
      else if is_digit c then
        let r := scan_digits 0 s in
        if starts_fraction (snd r) then None else Some r
      else None
  | "" => None
  end.

(** [s] without its prefix [p], when it starts with [p]. *)
Fixpoint strip_prefix (p s : string) : option string :=
  match p, s with
  | "", _ => Some s
  | String a p', String b s' => if Ascii.eqb a b then strip_prefix p' s' else None
  | String _ _, "" => None
  end.

(** The loops of [JSONArray] and [JSONObject], entered where an element
    (a property name) is expected. *)
Fixpoint array_loop (scan : string -> option (pyval * string)) (fuel : nat)
    (acc : list pyval) (s : string) : option (list pyval * string) :=
  match fuel with
  | 0 => None
  | S fuel' =>
      match scan s with
      | None => None
      | Some (v, r) =>
          match skip_ws r with
          | String c r' =>
              if Ascii.eqb c "]" then Some (acc ++ [v], r')
              else if Ascii.eqb c ","
                   then array_loop scan fuel' (acc ++ [v]) (skip_ws r')
                   else None
          | "" => None
          end
      end
  end.

Fixpoint object_loop (scan : string -> option (pyval * string)) (fuel : nat)
    (acc : list (pystr * pyval)) (s : string)
  : option (list (pystr * pyval) * string) :=
  match fuel with
  | 0 => None
  | S fuel' =>
      match s with
      | String q s1 =>
          if Ascii.eqb q dquote then
            match scanstring s1 with
            | None => None
            | Some (key, r) =>
                match skip_ws r with
                | String c r1 =>
                    if Ascii.eqb c ":" then
                      match scan (skip_ws r1) with
                      | None => None
                      | Some (v, r2) =>
                          match skip_ws r2 with
                          | String c' r3 =>
                              if Ascii.eqb c' "}" then Some (dict_set acc key v, r3)
                              else if Ascii.eqb c' ","
                                   then object_loop scan fuel' (dict_set acc key v) (skip_ws r3)
                                   else None
                          | "" => None
                          end
                      end
                    else None
                | "" => None
                end
            end
          else None
      | "" => None
      end
  end.

(** [scan_once]: one JSON value at the head of [s]. *)
Fixpoint scan_once (fuel : nat) (s : string) : option (pyval * string) :=
  match fuel with
  | 0 => None
  | S fuel' =>
      match s with
      | "" => None
      | String c rest =>
          if Ascii.eqb c dquote then
            match scanstring rest with
            | Some (x, r) => Some (PStr x, r)
            | None => None
            end
          else if Ascii.eqb c "{" then
            match skip_ws rest with
            | String c' r' =>
                if Ascii.eqb c' "}" then Some (PDict [], r')
                else match object_loop (scan_once fuel') fuel' [] (String c' r') with
                     | Some (d, r) => Some (PDict d, r)
                     | None => None
                     end
            | "" => None
            end
          else if Ascii.eqb c "[" then
            match skip_ws rest with
            | String c' r' =>
                if Ascii.eqb c' "]" then Some (PList [], r')
                else match array_loop (scan_once fuel') fuel' [] (String c' r') with
                     | Some (l, r) => Some (PList l, r)
                     | None => None
                     end
            | "" => None
            end
          else if Ascii.eqb c "n" then
            match strip_prefix "ull" rest with
            | Some r => Some (PNone, r) | None => None end
          else if Ascii.eqb c "t" then
            match strip_prefix "rue" rest with
            | Some r => Some (PBool true, r) | None => None end
          else if Ascii.eqb c "f" then
            match strip_prefix "alse" rest with
            | Some r => Some (PBool false, r) | None => None end
          else if Ascii.eqb c "-" then
            match scan_nat rest with
            | Some (n, r) => Some (PInt (- Z.of_N n), r) | None => None end
          else
            match scan_nat s with
            | Some (n, r) => Some (PInt (Z.of_N n), r) | None => None end
      end
  end.

(** [json.loads]: leading white space, one value, trailing white space, end
    of text.  [None] stands for [JSONDecodeError]. *)
Definition loads (s : string) : option pyval :=
  match scan_once (S (String.length s)) (skip_ws s) with
  | Some (v, r) => match skip_ws r with "" => Some v | _ => None end
  | None => None
  end.

End PyJson.

(** ** LangGraph: graphs, checkpoints, snapshots *)

Definition START : string := "__start__".
Definition END : string := "__end__".

(** The builder [StateGraph(State)]: named nodes, fixed edges, and branches
    (a routing function with the map from its results to targets). *)
Record StateGraph : Type := {
  nodes : list (string * (State -> Node State));
  edges : list (string * string);
  branches : list (string * ((State -> Exn + string) * list (string * string)))
}.

Definition empty_graph : StateGraph :=
  {| nodes := []; edges := []; branches := [] |}.

Definition add_node (key : string) (action : State -> Node State) (g : StateGraph)
  : StateGraph :=
  {| nodes := nodes g ++ [(key, action)]; edges := edges g; branches := branches g |}.

Definition add_edge (start_key end_key : string) (g : StateGraph) : StateGraph :=
  {| nodes := nodes g; edges := edges g ++ [(start_key, end_key)]; branches := branches g |}.

Definition add_conditional_edges (source : string) (path : State -> Exn + string)
    (path_map : list (string * string)) (g : StateGraph) : StateGraph :=
  {| nodes := nodes g; edges := edges g;
     branches := branches g ++ [(source, (path, path_map))] |}.

Definition assoc {A} (l : list (string * A)) (key : string) : option A :=
  snd <$> List.find (fun p => String.eqb (fst p) key) l.

(** What a checkpointer keeps for a thread: the [messages] channel, the node
    to run next (none once the run has reached [END]), and the interrupt
    values recorded for that node when it paused. *)
Record Checkpoint : Type := {
  channel_values : list Message;
  cp_next : option string;
  pending_interrupts : list pyval
}.

(** [Interrupt], [PregelTask] and [StateSnapshot] as [get_state] returns them:
    [values] is the [messages] entry of the values dict, absent for a thread
    without checkpoint. *)
Record Interrupt : Type := { value : pyval }.

Record PregelTask : Type := {
  task_name : string;
  interrupts : list Interrupt
}.

Record StateSnapshot : Type := {
  values : option (list Message);
  next : list string;
  tasks : list PregelTask
}.

(** The compiled graph with the contents of its checkpointer. *)
Record CompiledStateGraph : Type := {
  builder : StateGraph;
  checkpointer : gmap string Checkpoint
}.

Definition compile (g : StateGraph) (cp : gmap string Checkpoint) : CompiledStateGraph :=
  {| builder := g; checkpointer := cp |}.

(** The default [recursion_limit] of a run. *)
Definition recursion_limit : nat := 25.

(** The node triggered once [n] has written its update: through the branch
    of [n] when it has one, else along its edge; [None] when that is [END]
    or when [n] has no way out. *)
Definition successor (g : StateGraph) (n : string) (st : State) : Exn + option string :=
  let target t := if String.eqb t END then None else Some t in
  match assoc (branches g) n with
  | Some (path, path_map) =>
      match path st with
      | inl e => inl e
      | inr r => match assoc path_map r with
                 | Some t => inr (target t)
                 | None => inl KeyError
                 end
      end
  | None => inr (assoc (edges g) n ≫= target)
  end.

(** A node re-entered with a resume value: its first [interrupt] returns it. *)
Definition answer {A} (resume : option string) (m : Node A) : Node A :=
  match resume, m with
  | Some v, Pause _ k => k v
  | _, _ => m
  end.

Inductive StepResult : Type :=
| StepDone (c : Checkpoint)
| StepInterrupt (c : Checkpoint)
| StepError (e : Exn).

(** One superstep: run node [n] on the checkpointed state.  An update goes
    through the reducer and the successor is computed on the new state; an
    interrupt leaves the state as it was, keeps [n] as the node to run and
    records the interrupt value; an exception writes nothing. *)
Definition superstep (g : StateGraph) (n : string) (resume : option string)
    (c : Checkpoint) : StepResult :=
  match assoc (nodes g) n with
  | None => StepError KeyError
  | Some action =>
      match answer resume (action {| messages := channel_values c |}) with
      | Return update =>
          let msgs := add_messages (channel_values c) (messages update) in
          match successor g n {| messages := msgs |} with
          | inl e => StepError e
          | inr nx => StepDone {| channel_values := msgs; cp_next := nx;
                                  pending_interrupts := [] |}
          end
      | Raise e => StepError e
      | Pause v _ => StepInterrupt {| channel_values := channel_values c;
                                      cp_next := Some n;
                                      pending_interrupts := [v] |}
      end
  end.

Inductive Outcome : Type :=
| Finished                 (* the run reached [END] *)
| Interrupted              (* a node paused; the run stopped there *)
| Raised (e : Exn).

(** The superstep loop on thread [thread_id], from checkpoint [c]: a
    checkpoint is saved after every superstep; at most [limit] supersteps. *)
Fixpoint pregel_loop (g : StateGraph) (thread_id : string) (limit : nat)
    (resume : option string) (cp : gmap string Checkpoint) (c : Checkpoint)
  : gmap string Checkpoint * Outcome :=
  match cp_next c with
  | None => (cp, Finished)
  | Some n =>
      match limit with
      | 0 => (cp, Raised GraphRecursionError)
      | S limit' =>
          match superstep g n resume c with
          | StepDone c' => pregel_loop g thread_id limit' None (<[thread_id := c']> cp) c'
          | StepInterrupt c' => (<[thread_id := c']> cp, Interrupted)
          | StepError e => (cp, Raised e)
          end
      end
  end.

(** [app.invoke({"messages": input}, config)]: the input goes through the
    reducer onto the thread's messages (none for a new thread), whatever
    node was left to run is dropped, and the run starts from the entry node. *)
Definition invoke (app : CompiledStateGraph) (input : list Message) (thread_id : string)
  : CompiledStateGraph * Outcome :=
  let old := default [] (channel_values <$> checkpointer app !! thread_id) in
  let msgs := add_messages old input in
  match successor (builder app) START {| messages := msgs |} with
  | inl e => (app, Raised e)
  | inr nx =>
      let c := {| channel_values := msgs; cp_next := nx; pending_interrupts := [] |} in
      let r := pregel_loop (builder app) thread_id recursion_limit None
                 (<[thread_id := c]> (checkpointer app)) c in
      ({| builder := builder app; checkpointer := fst r |}, snd r)
  end.

(** [app.stream(Command(resume=ans), config)], run to its end: the node left
    to run is re-entered with [ans].  Nothing runs on a thread without
    checkpoint. *)
Definition stream_resume (app : CompiledStateGraph) (ans : string) (thread_id : string)
  : CompiledStateGraph * Outcome :=
  match checkpointer app !! thread_id with
  | None => (app, Finished)
  | Some c =>
      let r := pregel_loop (builder app) thread_id recursion_limit (Some ans)
                 (checkpointer app) c in
      ({| builder := builder app; checkpointer := fst r |}, snd r)
  end.

(** [app.get_state(config)] *)
Definition get_state (app : CompiledStateGraph) (thread_id : string) : StateSnapshot :=
  match checkpointer app !! thread_id with
  | None => {| values := None; next := []; tasks := [] |}
  | Some c =>
      {| values := Some (channel_values c);
         next := option_list (cp_next c);
         tasks := match cp_next c with
                  | Some n => [{| task_name := n;
                                  interrupts := Build_Interrupt <$> pending_interrupts c |}]
                  | None => []
                  end |}
  end.

(** [tools_condition]: route on the tool calls of the last message. *)
Definition tools_condition (state : State) : Exn + string :=
  match last (messages state) with
  | None => inl ValueError
  | Some (AIMessage _ (_ :: _)) => inr "tools"
  | Some _ => inr "__end__"
  end.

(** A tool: its name and its function on the arguments of a call, [None]
    when the arguments do not fit its signature. *)
Record Tool : Type := {
  tool_name : string;
  tool_func : pyval -> option string
}.

(** [ToolNode(tools)]: one [ToolMessage] per tool call of the last message,
    with the output of the tool, or with the error text of the library when
    the tool is unknown or its arguments do not fit. *)
Definition run_tool_call (tool_error : ToolCall -> string) (tools : list Tool)
    (call : ToolCall) : Message :=
  let output :=
    match List.find (fun t => String.eqb (tool_name t) (tc_name call)) tools with
    | Some t => default (tool_error call) (tool_func t (tc_args call))
    | None => tool_error call
    end in
  ToolMessage output (tc_name call) (tc_id call).

Definition ToolNode (tool_error : ToolCall -> string) (tools : list Tool)
    (state : State) : Node State :=
  match last (messages state) with
  | Some (AIMessage _ calls) =>
      Return {| messages := run_tool_call tool_error tools <$> calls |}
  | _ => Raise ValueError
  end.

(** [state.tasks and state.tasks[0].interrupts] *)
Definition has_interrupt (state : StateSnapshot) : bool :=
  match tasks state with
  | [] => false
  | t :: _ => match interrupts t with [] => false | _ :: _ => true end
  end.

(** [str.lower] on the letters [A-Z]. *)
Definition lower_char (c : ascii) : ascii :=
  let n := N_of_ascii c in
  if ((65 <=? n) && (n <=? 90))%N then ascii_of_N (n + 32) else c.

Fixpoint lower (s : string) : string :=
  match s with
  | "" => ""
  | String c s' => String (lower_char c) (lower s')
  end.

(** What [run_chat] prints for a message. *)
Inductive ChatLine : Type :=
| SystemLine (content : string)     (* [print(f"\nSYSTEM: {msg.content}")] *)
| AILine (content : string).        (* [print(f"\nAI: {msg.content}")] *)

(** What a turn of the loop of [run_chat] ends with. *)
Inductive ChatTurn : Type :=
| Waiting                   (* interrupt pending: sleep, then loop again *)
| Quit                      (* the user typed [q] or [exit] *)
| Invoked (out : Outcome).  (* the input was sent through the graph *)

(** What [run_admin] ends with. *)
Inductive AdminResult : Type :=
| NoPendingTasks                            (* [print("No pending tasks.")] *)
| Resumed (query : pyval) (out : Outcome)   (* the graph was resumed *)
| AdminRaised (e : Exn).

(** The history of a thread on which every user input got a direct reply:
    each input followed by its reply, in call order. *)
Fixpoint transcript (turns : list (string * string)) : list Message :=
  match turns with
  | [] => []
  | (txt, reply) :: turns' =>
      HumanMessage txt None :: AIMessage reply [] :: transcript turns'
  end.

(** ** Scripted collaborators

    Concrete instances of the parameters of the program, on which its
    functions can be run. *)

Definition demo_float_repr (f : spec_float) : string := "0.0".

Definition demo_dumps : pyval -> string := PyJson.dumps demo_float_repr.

(** A model that asks for help on requests starting with [I need], and
    answers everything else, the admin's resolution included, directly. *)
Definition demo_llm (history : list Message) : Exn + (string * list ToolCall) :=
  match last history with
  | Some (HumanMessage c _) =>
      if String.prefix "SYSTEM: " c then inr ("Done: " +:+ c, [])
      else if String.prefix "I need" c then
        inr ("", [{| tc_name := "human_help";
                     tc_args := PDict [(str "query", PStr "refund request order 42.")];
                     tc_id := "call_1" |}])
      else inr ("We are open 9 to 5.", [])
  | _ => inl ModelError
  end.

(** A model that asks for a tool that does not exist. *)
Definition stray_llm (history : list Message) : Exn + (string * list ToolCall) :=
  inr ("", [{| tc_name := "search"; tc_args := PDict []; tc_id := "call_1" |}]).

(** [INVALID_TOOL_NAME_ERROR_TEMPLATE] of [ToolNode], for the one tool bound. *)
Definition demo_tool_error (call : ToolCall) : string :=
  "Error: " +:+ tc_name call +:+ " is not a valid tool, try one of [human_help].".

(** The thread of a refund request, as it is stored once the [human] node
    has paused on it. *)
Definition refund_call : ToolCall :=
  {| tc_name := "human_help";
     tc_args := PDict [(str "query", PStr "refund request order 42.")];
     tc_id := "call_1" |}.

Definition refund_marker : string :=
  demo_dumps (PDict [(str "need_human", PBool true);
                     (str "query", PStr "refund request order 42.")]).

Definition refund_history : list Message :=
  [HumanMessage "I need a refund for order 42." None;
   AIMessage "" [refund_call];
   ToolMessage refund_marker "human_help" "call_1"].

Definition refund_checkpoint : Checkpoint :=
  {| channel_values := refund_history;
     cp_next := Some "human";
     pending_interrupts := [PDict [(str "query", PStr "refund request order 42.")]] |}.

Definition refund_store : gmap string Checkpoint := {[ "t1" := refund_checkpoint ]}.

(** The thread of a question the model answered directly. *)
Definition hours_store : gmap string Checkpoint :=
  {[ "t2" := {| channel_values := [HumanMessage "What are your hours?" None;
                                   AIMessage "We are open 9 to 5." []];
                cp_next := None;
                pending_interrupts := [] |} ]}.

(** The state the [human] node gets when the model asked for a tool that
    does not exist. *)
Definition stray_call : ToolCall :=
  {| tc_name := "search"; tc_args := PDict []; tc_id := "call_1" |}.

Definition stray_history : list Message :=
  [HumanMessage "hi" None;
   AIMessage "" [stray_call];
   ToolMessage (demo_tool_error stray_call) "search" "call_1"].





(** ** The program *)

Section Graph.

(** [json.dumps] and [json.loads] ([None]: [JSONDecodeError]). *)
Variable json_dumps : pyval -> string.
Variable json_loads : string -> option pyval.

(** [llm.invoke]: the content and the tool calls of the [AIMessage] the
    model answers with, or the failure of the call. *)
Variable llm : list Message -> Exn + (string * list ToolCall).

(** The text [ToolNode] reports for a call it cannot run. *)
Variable tool_error : ToolCall -> string.

Definition loads (s : string) : Exn + pyval :=
  match json_loads s with Some v => inr v | None => inl JSONDecodeError end.

(** [human_help], and the tool the [@tool] decorator makes of it: it is
    called [human_help] and takes a [str] argument [query]. *)
Definition human_help (query : pystr) : string :=
  json_dumps (PDict [(str "need_human", PBool true); (str "query", PStr query)]).

Definition human_help_tool : Tool :=
  {| tool_name := "human_help";
     tool_func := fun args =>
       match py_getitem args "query" with
       | inr (PStr query) => Some (human_help query)
       | _ => None
       end |}.

Definition tools : list Tool := [human_help_tool].

Definition chatbot (state : State) : Node State :=
  reply ← try (llm (SystemMessage "If user needs help, call human_help tool."
                      :: messages state));
  mret {| messages := [AIMessage (fst reply) (snd reply)] |}.

Definition human_node (state : State) : Node State :=
  match last (messages state) with
  | None => Raise IndexError
  | Some last_msg =>
      if is_ToolMessage last_msg then
        parsed ← try (loads (msg_content last_msg));
        flag ← try (py_get parsed "need_human");
        if truthy flag then
          parsed ← try (loads (msg_content last_msg));
          query ← try (py_getitem parsed "query");
          solution ← interrupt (PDict [(str "query", query)]);
          mret {| messages :=
                    [HumanMessage ("SYSTEM: Admin resolved this: " +:+ solution) None] |}
        else mret {| messages := [] |}
      else mret {| messages := [] |}
  end.

Definition get_app (checkpointer : gmap string Checkpoint) : CompiledStateGraph :=
  let workflow := empty_graph in
  let workflow := add_node "bot" chatbot workflow in
  let workflow := add_node "tools" (ToolNode tool_error tools) workflow in
  let workflow := add_node "human" human_node workflow in
  let workflow := add_edge START "bot" workflow in
  let workflow := add_conditional_edges "bot" tools_condition
                    [("tools", "tools"); ("__end__", END)] workflow in
  let workflow := add_edge "tools" "human" workflow in
  let workflow := add_edge "human" "bot" workflow in
  compile workflow checkpointer.

(** The test of the display loop of [run_chat] on one message. *)
Definition display (msg : Message) : option ChatLine :=
  if is_HumanMessage msg && negb (bool_decide (msg_name msg = Some "user"))
  then Some (SystemLine (msg_content msg))
  else if negb (String.eqb (msg_content msg) "") && String.eqb (msg_type msg) "ai"
  then Some (AILine (msg_content msg))
  else None.

(** One turn of the loop of [run_chat] on the store [cp], with the count
    of messages already shown and the line [txt] the user types if asked:
    the new store, the new count, the lines printed and how the turn ends.
    [("user", txt)] enters the state as a [HumanMessage] without name. *)
Definition run_chat_turn (cp : gmap string Checkpoint) (thread_id : string)
    (last_msg_count : nat) (txt : string)
  : gmap string Checkpoint * nat * list ChatLine * ChatTurn :=
  let app := get_app cp in
  let state := get_state app thread_id in
  let msgs := default [] (values state) in
  let shown :=
    if (last_msg_count <? length msgs)%nat
    then (length msgs, omap display (drop last_msg_count msgs))
    else (last_msg_count, []) in
  if has_interrupt state then (cp, fst shown, snd shown, Waiting)
  else if bool_decide (lower txt ∈ ["q"; "exit"]) then (cp, fst shown, snd shown, Quit)
  else
    let r := invoke app [HumanMessage txt None] thread_id in
    (checkpointer (fst r), fst shown, snd shown, Invoked (snd r)).

(** [run_admin] on the store [cp], with the line [ans] the admin types if
    asked: the new store and how the call ends. *)
Definition run_admin (cp : gmap string Checkpoint) (thread_id : string) (ans : string)
  : gmap string Checkpoint * AdminResult :=
  let app := get_app cp in
  let state := get_state app thread_id in
  match tasks state with
  | t :: _ =>
      match interrupts t with
      | i :: _ =>
          match py_getitem (value i) "query" with
          | inl e => (cp, AdminRaised e)
          | inr query =>
              let r := stream_resume app ans thread_id in
              (checkpointer (fst r), Resumed query (snd r))
          end
      | [] => (cp, NoPendingTasks)
      end
  | [] => (cp, NoPendingTasks)
  end.

(** *** Notions the properties are stated with *)

(** The graph the program builds; it does not depend on the store. *)
Definition workflow : StateGraph := builder (get_app ∅).

(** The message the [human] node returns once resumed with [ans]. *)
Definition resolution_note (ans : string) : Message :=
  HumanMessage ("SYSTEM: Admin resolved this: " +:+ ans) None.

(** A tool result tagged as an escalation request carrying [query]: its
    content decodes to an object whose [need_human] entry is true in the
    sense of Python and which has a [query] entry. *)
Definition escalation_request (content : string) (query : pyval) : Prop :=
  exists d, json_loads content = Some (PDict d)
            /\ truthy (default PNone (dict_lookup d "need_human")) = true
            /\ dict_lookup d "query" = Some query.

(** A checkpoint suspended in the [human] node on the question [query]. *)
Definition suspended (c : Checkpoint) (query : pyval) : Prop :=
  cp_next c = Some "human"
  /\ pending_interrupts c = [PDict [(str "query", query)]]
  /\ exists content n i,
       last (channel_values c) = Some (ToolMessage content n i)
       /\ escalation_request content query.

(** A checkpoint carries no interrupt, or is suspended on a question. *)
Definition checkpoint_ok (c : Checkpoint) : Prop :=
  pending_interrupts c = [] \/ exists query, suspended c query.

(** Messages the graph itself appends in a run without resume value. *)
Definition ai_or_tool (m : Message) : Prop :=
  msg_type m = "ai" \/ msg_type m = "tool".

(** The stores a process can observe.  A process reads the checkpoint of a
    thread in an observable store [cp0] and saves what it computes from it
    into the store as it is by then, [cp]: the input of an [invoke], or the
    result of a superstep, with or without resume value.  [cp0] and [cp]
    differ when another process has written in between. *)
Inductive observable : gmap string Checkpoint -> Prop :=
| obs_empty : observable ∅
| obs_input cp cp0 tid input :
    observable cp ->
    observable cp0 ->
    observable (<[tid := {| channel_values :=
                              add_messages (default [] (channel_values <$> cp0 !! tid)) input;
                            cp_next := Some "bot";
                            pending_interrupts := [] |}]> cp)
| obs_step cp cp0 tid c n resume c' :
    observable cp ->
    observable cp0 ->
    cp0 !! tid = Some c ->
    cp_next c = Some n ->
    (superstep workflow n resume c = StepDone c'
     \/ superstep workflow n resume c = StepInterrupt c') ->
    observable (<[tid := c']> cp).

(** The number of interrupts a snapshot shows. *)
Definition interrupt_count (state : StateSnapshot) : nat :=
  sum_list (length ∘ interrupts <$> tasks state).

(** The calls [app.invoke({"messages": [("user", txt)]}, config)] of
    successive turns of [run_chat], on one thread. *)
Fixpoint invoke_seq (cp : gmap string Checkpoint) (thread_id : string)
    (inputs : list string) : gmap string Checkpoint * list Outcome :=
  match inputs with
  | [] => (cp, [])
  | txt :: inputs' =>
      let r := invoke (get_app cp) [HumanMessage txt None] thread_id in
      let r' := invoke_seq (checkpointer (fst r)) thread_id inputs' in
      (fst r', snd r :: snd r')
  end.

(** Direct replies along [turns] from history [h]: to each input the model
    gives the paired reply and requests no tool call. *)
Fixpoint direct_replies (h : list Message) (turns : list (string * string)) : Prop :=
  match turns with
  | [] => True
  | (txt, reply) :: turns' =>
      llm (SystemMessage "If user needs help, call human_help tool."
             :: h ++ [HumanMessage txt None]) = inr (reply, [])
      /\ direct_replies (h ++ [HumanMessage txt None; AIMessage reply []]) turns'
  end.

(** The stores the two modes of the program produce from the empty store:
    by turns of [run_chat] and by calls of [run_admin], on any threads and
    with any lines typed. *)
Inductive session : gmap string Checkpoint -> Prop :=
| session_empty : session ∅
| session_chat cp tid count txt :
    session cp ->
    session (fst (fst (fst (run_chat_turn cp tid count txt))))
| session_admin cp tid ans :
    session cp ->
    session (fst (run_admin cp tid ans)).

(** ** Properties *)

(** *** The graph *)

Lemma workflow_get_app cp : builder (get_app cp) = workflow.
Proof. reflexivity. Qed.

Lemma node_bot : assoc (nodes workflow) "bot" = Some chatbot.
Proof. reflexivity. Qed.


Lemma node_human : assoc (nodes workflow) "human" = Some human_node.
Proof. reflexivity. Qed.

Lemma successor_start st : successor workflow START st = inr (Some "bot").
Proof. reflexivity. Qed.

Lemma successor_tools st : successor workflow "tools" st = inr (Some "human").
Proof. reflexivity. Qed.

Lemma successor_human st : successor workflow "human" st = inr (Some "bot").
Proof. reflexivity. Qed.

Lemma successor_bot st :
  successor workflow "bot" st =
  match last (messages st) with
  | None => inl ValueError
  | Some (AIMessage _ (_ :: _)) => inr (Some "tools")
  | Some _ => inr None
  end.
Proof.
  unfold successor. change (assoc (branches workflow) "bot")
    with (Some (tools_condition, [("tools", "tools"); ("__end__", END)])).
  unfold tools_condition.
  destruct (last (messages st)) as [[| | ? [|] |]|]; reflexivity.
Qed.

(** *** The [human] node, case by case *)


Lemma human_node_not_tool st m :
  last (messages st) = Some m -> is_ToolMessage m = false ->
  human_node st = Return {| messages := [] |}.
Proof. intros H Hm. unfold human_node. rewrite H, Hm. reflexivity. Qed.

Lemma human_node_undecodable st c n i :
  last (messages st) = Some (ToolMessage c n i) -> json_loads c = None ->
  human_node st = Raise JSONDecodeError.
Proof.
  intros H Hc. unfold human_node. rewrite H. simpl. unfold loads. rewrite Hc.
  reflexivity.
Qed.

Lemma human_node_not_object st c n i v :
  last (messages st) = Some (ToolMessage c n i) -> json_loads c = Some v ->
  (forall d, v <> PDict d) ->
  human_node st = Raise AttributeError.
Proof.
  intros H Hc Hv. unfold human_node. rewrite H. simpl. unfold loads. rewrite Hc.
  destruct v; try reflexivity. destruct (Hv d eq_refl).
Qed.

Lemma human_node_no_flag st c n i d :
  last (messages st) = Some (ToolMessage c n i) -> json_loads c = Some (PDict d) ->
  truthy (default PNone (dict_lookup d "need_human")) = false ->
  human_node st = Return {| messages := [] |}.
Proof.
  intros H Hc Hf. unfold human_node. rewrite H. simpl. unfold loads. rewrite Hc.
  simpl. rewrite Hf. reflexivity.
Qed.

Lemma human_node_no_query st c n i d :
  last (messages st) = Some (ToolMessage c n i) -> json_loads c = Some (PDict d) ->
  truthy (default PNone (dict_lookup d "need_human")) = true ->
  dict_lookup d "query" = None ->
  human_node st = Raise KeyError.
Proof.
  intros H Hc Hf Hq. unfold human_node. rewrite H. simpl. unfold loads. rewrite Hc.
  simpl. rewrite Hf. simpl. rewrite Hq. reflexivity.
Qed.

Lemma human_node_escalation st c n i query :
  last (messages st) = Some (ToolMessage c n i) -> escalation_request c query ->
  human_node st =
  Pause (PDict [(str "query", query)])
        (fun solution => Return {| messages := [resolution_note solution] |}).
Proof.
  intros H (d & Hc & Hf & Hq). unfold human_node. rewrite H. simpl.
  unfold loads. rewrite Hc. simpl. rewrite Hf. simpl. rewrite Hq. reflexivity.
Qed.


(** *** Supersteps, node by node *)

Lemma assoc_nodes_inv n action :
  assoc (nodes workflow) n = Some action ->
  (n = "bot" /\ action = chatbot)
  \/ (n = "tools" /\ action = ToolNode tool_error tools)
  \/ (n = "human" /\ action = human_node).
Proof.
  unfold assoc, workflow. cbn -[String.eqb].
  destruct (String.eqb_spec "bot" n) as [<-|_]; [intros [= <-]; auto|].
  destruct (String.eqb_spec "tools" n) as [<-|_]; [intros [= <-]; auto|].
  destruct (String.eqb_spec "human" n) as [<-|_]; [intros [= <-]; auto|].
  discriminate.
Qed.

Lemma chatbot_reply st content calls :
  llm (SystemMessage "If user needs help, call human_help tool." :: messages st)
  = inr (content, calls) ->
  chatbot st = Return {| messages := [AIMessage content calls] |}.
Proof. intros H. unfold chatbot. rewrite H. reflexivity. Qed.

Lemma chatbot_cases st :
  (exists e, chatbot st = Raise e)
  \/ (exists content calls, chatbot st = Return {| messages := [AIMessage content calls] |}).
Proof.
  unfold chatbot.
  destruct (llm _) as [e|[content calls]]; [left; eauto | right; eauto].
Qed.

Lemma superstep_bot resume c content calls :
  llm (SystemMessage "If user needs help, call human_help tool." :: channel_values c)
  = inr (content, calls) ->
  superstep workflow "bot" resume c =
  StepDone {| channel_values := channel_values c ++ [AIMessage content calls];
              cp_next := match calls with [] => None | _ :: _ => Some "tools" end;
              pending_interrupts := [] |}.
Proof.
  intros H. unfold superstep. rewrite node_bot.
  rewrite (chatbot_reply _ content calls) by exact H.
  destruct resume; simpl answer; cbn [messages]; rewrite successor_bot;
    cbn [messages]; unfold add_messages; rewrite last_snoc;
    destruct calls; reflexivity.
Qed.



Lemma superstep_human_resume c n i content query ans :
  last (channel_values c) = Some (ToolMessage content n i) ->
  escalation_request content query ->
  superstep workflow "human" (Some ans) c =
  StepDone {| channel_values := channel_values c ++ [resolution_note ans];
              cp_next := Some "bot";
              pending_interrupts := [] |}.
Proof.
  intros H He. unfold superstep. rewrite node_human.
  rewrite (human_node_escalation _ content n i query) by assumption.
  reflexivity.
Qed.

Lemma superstep_human_return resume c :
  human_node {| messages := channel_values c |} = Return {| messages := [] |} ->
  superstep workflow "human" resume c =
  StepDone {| channel_values := channel_values c;
              cp_next := Some "bot";
              pending_interrupts := [] |}.
Proof.
  intros H. unfold superstep. rewrite node_human, H.
  destruct resume; simpl; unfold add_messages; rewrite app_nil_r; reflexivity.
Qed.

Lemma human_node_cases st :
  (exists e, human_node st = Raise e)
  \/ human_node st = Return {| messages := [] |}
  \/ (exists c n i query,
        last (messages st) = Some (ToolMessage c n i)
        /\ escalation_request c query
        /\ human_node st =
           Pause (PDict [(str "query", query)])
                 (fun solution => Return {| messages := [resolution_note solution] |})).
Proof.
  destruct (last (messages st)) as [m|] eqn:Hl.
  2:{ left. exists IndexError. unfold human_node. rewrite Hl. reflexivity. }
  destruct (is_ToolMessage m) eqn:Hm.
  2:{ right; left. eapply human_node_not_tool; eassumption. }
  destruct m as [c|c nm|c calls|c n i]; try discriminate.
  destruct (json_loads c) as [v|] eqn:Hc.
  2:{ left. exists JSONDecodeError. eapply human_node_undecodable; eassumption. }
  assert (Hv : (exists d, v = PDict d) \/ (forall d, v <> PDict d)).
  { destruct v; try (right; discriminate). left; eauto. }
  destruct Hv as [[d ->]|Hv].
  2:{ left. exists AttributeError. eapply human_node_not_object; eassumption. }
  destruct (truthy (default PNone (dict_lookup d "need_human"))) eqn:Hf.
  2:{ right; left. eapply human_node_no_flag; eassumption. }
  destruct (dict_lookup d "query") as [q|] eqn:Hq.
  2:{ left. exists KeyError. eapply human_node_no_query; eassumption. }
  right; right. exists c, n, i, q.
  assert (He : escalation_request c q) by (exists d; auto).
  split; [reflexivity|]. split; [exact He|].
  eapply human_node_escalation; eassumption.
Qed.

(** What a superstep can end with. *)
Lemma superstep_cases n resume c :
  match superstep workflow n resume c with
  | StepDone c' =>
      pending_interrupts c' = []
      /\ ((exists rest, channel_values c' = channel_values c ++ rest
                        /\ Forall ai_or_tool rest)
          \/ (exists ans, resume = Some ans /\ n = "human"
                          /\ cp_next c' = Some "bot"
                          /\ channel_values c' = channel_values c ++ [resolution_note ans]))
  | StepInterrupt c' =>
      resume = None /\ n = "human"
      /\ channel_values c' = channel_values c
      /\ exists query, suspended c' query
  | StepError _ => True
  end.
Proof.
  unfold superstep.
  destruct (assoc (nodes workflow) n) as [action|] eqn:Hn; [|exact I].
  apply assoc_nodes_inv in Hn as [[-> ->]|[[-> ->]|[-> ->]]].
  - destruct (chatbot_cases {| messages := channel_values c |})
      as [[e ->]|(content & calls & ->)].
    + destruct resume; exact I.
    + assert (Ha : answer resume (Return {| messages := [AIMessage content calls] |})
                   = Return {| messages := [AIMessage content calls] |})
        by (destruct resume; reflexivity).
      rewrite Ha. cbn [messages]. rewrite successor_bot. cbn [messages].
      unfold add_messages. rewrite last_snoc.
      assert (Hr : Forall ai_or_tool [AIMessage content calls])
        by (repeat constructor).
      destruct calls; (split; [reflexivity|]); left; eexists; eauto.
  - unfold ToolNode. cbn [messages].
    destruct (last (channel_values c)) as [[| |content calls|]|];
      try (destruct resume; exact I).
    assert (Ha : forall u : State, answer resume (Return u) = Return u)
      by (destruct resume; reflexivity).
    rewrite Ha. cbn [messages]. rewrite successor_tools.
    split; [reflexivity|]. left. eexists. split; [reflexivity|].
    apply Forall_fmap, Forall_true. intros call. right. reflexivity.
  - destruct (human_node_cases {| messages := channel_values c |})
      as [[e ->]|[->|(content & k & i & q & Hl & He & ->)]].
    + destruct resume; exact I.
    + assert (Ha : forall u : State, answer resume (Return u) = Return u)
        by (destruct resume; reflexivity).
      rewrite Ha. cbn [messages]. rewrite successor_human.
      split; [reflexivity|]. left. exists []. split; [reflexivity|constructor].
    + destruct resume as [ans|]; simpl answer; cbn [messages].
      * rewrite successor_human. split; [reflexivity|]. right. exists ans. auto.
      * split; [reflexivity|]. split; [reflexivity|]. split; [reflexivity|].
        exists q. split; [reflexivity|]. split; [reflexivity|].
        exists content, k, i. auto.
Qed.

(** *** The superstep loop *)

Lemma pregel_loop_end g tid limit resume cp c :
  cp_next c = None -> pregel_loop g tid limit resume cp c = (cp, Finished).
Proof. intros H. destruct limit; cbn [pregel_loop]; rewrite H; reflexivity. Qed.

Lemma pregel_loop_step g tid limit resume cp c n :
  cp_next c = Some n ->
  pregel_loop g tid (S limit) resume cp c =
  match superstep g n resume c with
  | StepDone c' => pregel_loop g tid limit None (<[tid := c']> cp) c'
  | StepInterrupt c' => (<[tid := c']> cp, Interrupted)
  | StepError e => (cp, Raised e)
  end.
Proof. intros H. cbn [pregel_loop]. rewrite H. reflexivity. Qed.

(** Every checkpoint of an observable store is well formed. *)
Lemma observable_ok cp :
  observable cp -> forall tid c, cp !! tid = Some c -> checkpoint_ok c.
Proof.
  induction 1 as [|cp cp0 tid0 input Hobs IH _ _
                  |cp cp0 tid0 c0 n resume c' Hobs IH _ _ Hc0 Hn Hstep];
    intros tid c Hc.
  - rewrite lookup_empty in Hc. discriminate.
  - destruct (decide (tid0 = tid)) as [->|Hne].
    + rewrite lookup_insert_eq in Hc. injection Hc as <-. left. reflexivity.
    + rewrite lookup_insert_ne in Hc by exact Hne. eauto.
  - destruct (decide (tid0 = tid)) as [->|Hne].
    + rewrite lookup_insert_eq in Hc. injection Hc as <-.
      pose proof (superstep_cases n resume c0) as Hcases.
      destruct Hstep as [Hs|Hs]; rewrite Hs in Hcases.
      * left. apply Hcases.
      * right. apply Hcases.
    + rewrite lookup_insert_ne in Hc by exact Hne. eauto.
Qed.

Lemma pregel_loop_observable tid limit :
  forall resume cp cp0 c,
    observable cp -> observable cp0 -> cp0 !! tid = Some c ->
    observable (fst (pregel_loop workflow tid limit resume cp c)).
Proof.
  induction limit as [|limit IH]; intros resume cp cp0 c Hobs Hobs0 Hc.
  - cbn [pregel_loop]. destruct (cp_next c); exact Hobs.
  - destruct (cp_next c) as [n|] eqn:Hn.
    2:{ rewrite pregel_loop_end by exact Hn. exact Hobs. }
    rewrite (pregel_loop_step _ _ _ _ _ _ n) by exact Hn.
    destruct (superstep workflow n resume c) as [c'|c'|e] eqn:Hs.
    + assert (Hobs' : observable (<[tid := c']> cp))
        by (eapply obs_step; eauto).
      apply (IH None _ _ c' Hobs' Hobs'). apply lookup_insert_eq.
    + eapply obs_step; eauto.
    + exact Hobs.
Qed.

(** A run without resume value only appends messages of the model and of
    the tools, and stops on a well-formed checkpoint. *)
Lemma pregel_loop_history tid limit :
  forall cp c,
    cp !! tid = Some c ->
    exists c' rest,
      fst (pregel_loop workflow tid limit None cp c) !! tid = Some c'
      /\ channel_values c' = channel_values c ++ rest
      /\ Forall ai_or_tool rest
      /\ (checkpoint_ok c -> checkpoint_ok c').
Proof.
  induction limit as [|limit IH]; intros cp c Hc.
  - exists c, []. rewrite app_nil_r.
    cbn [pregel_loop]. destruct (cp_next c); auto.
  - destruct (cp_next c) as [n|] eqn:Hn.
    2:{ rewrite pregel_loop_end by exact Hn. exists c, [].
        rewrite app_nil_r. auto. }
    rewrite (pregel_loop_step _ _ _ _ _ _ n) by exact Hn.
    pose proof (superstep_cases n None c) as Hcases.
    destruct (superstep workflow n None c) as [c1|c1|e].
    + destruct Hcases as [Hp [(rest1 & Hv1 & Hr1)|(ans & Hres & _)]];
        [|discriminate].
      destruct (IH (<[tid := c1]> cp) c1 (lookup_insert_eq _ _ _))
        as (c' & rest & Hc' & Hv & Hr & Hok).
      exists c', (rest1 ++ rest). split; [exact Hc'|].
      split; [rewrite Hv, Hv1, app_assoc; reflexivity|].
      split; [apply Forall_app; auto|].
      intros _. apply Hok. left. exact Hp.
    + destruct Hcases as (_ & _ & Hv1 & Hs).
      exists c1, []. cbn [fst]. rewrite lookup_insert_eq, app_nil_r.
      repeat split; auto. intros _. right. exact Hs.
    + exists c, []. rewrite app_nil_r. auto.
Qed.

Lemma invoke_observable cp input tid :
  observable cp -> observable (checkpointer (fst (invoke (get_app cp) input tid))).
Proof.
  intros Hobs. unfold invoke. rewrite workflow_get_app, successor_start.
  cbn [fst checkpointer].
  assert (Hobs' : observable
            (<[tid := {| channel_values :=
                           add_messages (default [] (channel_values <$> cp !! tid)) input;
                         cp_next := Some "bot";
                         pending_interrupts := [] |}]> cp))
    by (apply obs_input; exact Hobs).
  eapply pregel_loop_observable; [exact Hobs'|exact Hobs'|apply lookup_insert_eq].
Qed.

Lemma stream_resume_observable cp ans tid :
  observable cp -> observable (checkpointer (fst (stream_resume (get_app cp) ans tid))).
Proof.
  intros Hobs. unfold stream_resume. cbn [checkpointer get_app compile].
  destruct (cp !! tid) as [c|] eqn:Hc; [|exact Hobs].
  cbn [fst checkpointer]. eapply pregel_loop_observable; eassumption.
Qed.

Lemma run_admin_observable cp tid ans :
  observable cp -> observable (fst (run_admin cp tid ans)).
Proof.
  intros Hobs. unfold run_admin.
  destruct (tasks (get_state (get_app cp) tid)) as [|t ts]; [exact Hobs|].
  destruct (interrupts t) as [|i others]; [exact Hobs|].
  destruct (py_getitem (value i) "query"); [exact Hobs|].
  cbn [fst]. apply stream_resume_observable. exact Hobs.
Qed.

Lemma run_chat_turn_observable cp tid count txt :
  observable cp -> observable (fst (fst (fst (run_chat_turn cp tid count txt)))).
Proof.
  intros Hobs. unfold run_chat_turn.
  destruct (has_interrupt _); [exact Hobs|].
  destruct (bool_decide _); [exact Hobs|].
  cbn [fst]. apply invoke_observable. exact Hobs.
Qed.

(** What [get_state] shows of a checkpoint. *)
Lemma get_state_checkpoint cp tid c :
  cp !! tid = Some c ->
  get_state (get_app cp) tid =
  {| values := Some (channel_values c);
     next := option_list (cp_next c);
     tasks := match cp_next c with
              | Some n => [{| task_name := n;
                              interrupts := Build_Interrupt <$> pending_interrupts c |}]
              | None => []
              end |}.
Proof. intros H. unfold get_state. cbn [checkpointer get_app compile]. rewrite H. reflexivity. Qed.

(** A snapshot that shows an interrupt comes from a checkpoint that
    carries one. *)
Lemma has_interrupt_inv cp tid :
  has_interrupt (get_state (get_app cp) tid) = true ->
  exists c, cp !! tid = Some c /\ pending_interrupts c <> [].
Proof.
  unfold has_interrupt, get_state. cbn [checkpointer get_app compile].
  destruct (cp !! tid) as [c|] eqn:Hc; cbn; [|discriminate].
  destruct (cp_next c); cbn; [|discriminate].
  destruct (pending_interrupts c) eqn:Hp; cbn; [discriminate|].
  intros _. exists c. split; [reflexivity|]. rewrite Hp. discriminate.
Qed.

(** [run_admin] on a suspended thread: the [human] node completes with the
    resolution note, and the run goes on from [bot] without resume value. *)
Lemma run_admin_suspended cp tid c query ans :
  cp !! tid = Some c -> suspended c query ->
  let c1 := {| channel_values := channel_values c ++ [resolution_note ans];
               cp_next := Some "bot";
               pending_interrupts := [] |} in
  superstep workflow "human" (Some ans) c = StepDone c1
  /\ run_admin cp tid ans =
     (fst (pregel_loop workflow tid 24 None (<[tid := c1]> cp) c1),
      Resumed query (snd (pregel_loop workflow tid 24 None (<[tid := c1]> cp) c1))).
Proof.
  intros Hc (Hn & Hp & content & n & i & Hl & He) c1.
  assert (Hs : superstep workflow "human" (Some ans) c = StepDone c1)
    by (eapply superstep_human_resume; eassumption).
  split; [exact Hs|].
  unfold run_admin. rewrite (get_state_checkpoint cp tid c Hc), Hn, Hp.
  cbn [tasks interrupts fmap list_fmap value].
  change (py_getitem (PDict [(str "query", query)]) "query") with (inr query : Exn + pyval).
  cbv beta iota. unfold stream_resume. rewrite workflow_get_app.
  cbn [checkpointer get_app compile].
  rewrite Hc. cbn [fst snd checkpointer].
  change recursion_limit with (S 24).
  rewrite (pregel_loop_step _ _ _ _ _ _ "human") by exact Hn.
  rewrite Hs. reflexivity.
Qed.

(** An input the model answers directly: one superstep, then [END]. *)
Lemma invoke_direct_reply cp tid txt reply :
  llm (SystemMessage "If user needs help, call human_help tool."
         :: default [] (channel_values <$> cp !! tid) ++ [HumanMessage txt None])
  = inr (reply, []) ->
  invoke (get_app cp) [HumanMessage txt None] tid =
  ({| builder := workflow;
      checkpointer :=
        <[tid := {| channel_values :=
                      default [] (channel_values <$> cp !! tid)
                      ++ [HumanMessage txt None; AIMessage reply []];
                    cp_next := None;
                    pending_interrupts := [] |}]> cp |},
   Finished).
Proof.
  intros H. unfold invoke. rewrite workflow_get_app, successor_start.
  cbn [checkpointer get_app compile]. unfold add_messages.
  change recursion_limit with (S 24).
  rewrite (pregel_loop_step _ _ _ _ _ _ "bot") by reflexivity.
  rewrite (superstep_bot _ _ reply []) by exact H.
  rewrite pregel_loop_end by reflexivity.
  cbn [fst snd channel_values]. rewrite insert_insert_eq, <- app_assoc.
  reflexivity.
Qed.

(** A run only appends to the messages of its thread. *)
Lemma pregel_loop_appends tid limit :
  forall resume cp c,
    cp !! tid = Some c ->
    exists c' rest,
      fst (pregel_loop workflow tid limit resume cp c) !! tid = Some c'
      /\ channel_values c' = channel_values c ++ rest.
Proof.
  induction limit as [|limit IH]; intros resume cp c Hc.
  - exists c, []. rewrite app_nil_r.
    cbn [pregel_loop]. destruct (cp_next c); auto.
  - destruct (cp_next c) as [n|] eqn:Hn.
    2:{ rewrite pregel_loop_end by exact Hn. exists c, []. rewrite app_nil_r. auto. }
    rewrite (pregel_loop_step _ _ _ _ _ _ n) by exact Hn.
    pose proof (superstep_cases n resume c) as Hcases.
    destruct (superstep workflow n resume c) as [c1|c1|e].
    + assert (H1 : exists rest1, channel_values c1 = channel_values c ++ rest1).
      { destruct Hcases as [_ [(rest1 & Hv1 & _)|(ans & _ & _ & _ & Hv1)]]; eauto. }
      destruct H1 as [rest1 Hv1].
      destruct (IH None (<[tid := c1]> cp) c1 (lookup_insert_eq _ _ _))
        as (c' & rest & Hc' & Hv).
      exists c', (rest1 ++ rest). split; [exact Hc'|].
      rewrite Hv, Hv1, app_assoc. reflexivity.
    + destruct Hcases as (_ & _ & Hv1 & _).
      exists c1, []. cbn [fst]. rewrite lookup_insert_eq, app_nil_r. auto.
    + exists c, []. rewrite app_nil_r. auto.
Qed.

Lemma invoke_appends cp input tid :
  exists c' rest,
    checkpointer (fst (invoke (get_app cp) input tid)) !! tid = Some c'
    /\ channel_values c'
       = default [] (channel_values <$> cp !! tid) ++ input ++ rest
    /\ Forall ai_or_tool rest.
Proof.
  unfold invoke. rewrite workflow_get_app, successor_start.
  cbn [fst checkpointer get_app compile].
  set (c := {| channel_values := _; cp_next := _; pending_interrupts := _ |}).
  destruct (pregel_loop_history tid recursion_limit (<[tid := c]> cp) c
              (lookup_insert_eq _ _ _)) as (c' & rest & Hc' & Hv & Hr & _).
  exists c', rest. split; [exact Hc'|]. split; [|exact Hr].
  rewrite Hv. subst c. cbn [channel_values]. unfold add_messages.
  rewrite <- app_assoc. reflexivity.
Qed.

Lemma run_admin_appends cp tid ans c :
  cp !! tid = Some c ->
  exists c' rest,
    fst (run_admin cp tid ans) !! tid = Some c'
    /\ channel_values c' = channel_values c ++ rest.
Proof.
  intros Hc.
  assert (Hsame : exists c' rest, cp !! tid = Some c'
                                  /\ channel_values c' = channel_values c ++ rest)
    by (exists c, []; rewrite app_nil_r; auto).
  unfold run_admin.
  destruct (tasks (get_state (get_app cp) tid)) as [|t ts]; [exact Hsame|].
  destruct (interrupts t) as [|i others]; [exact Hsame|].
  destruct (py_getitem (value i) "query"); [exact Hsame|].
  cbn [fst]. unfold stream_resume. rewrite workflow_get_app.
  cbn [checkpointer get_app compile]. rewrite Hc. cbn [fst checkpointer].
  apply pregel_loop_appends. exact Hc.
Qed.

(** While the thread shows an interrupt, a turn of [run_chat] waits and
    leaves the store alone; otherwise, unless the user quits, it is the
    [invoke] of the line typed. *)
Lemma run_chat_turn_waits cp tid count txt :
  has_interrupt (get_state (get_app cp) tid) = true ->
  fst (fst (fst (run_chat_turn cp tid count txt))) = cp
  /\ snd (run_chat_turn cp tid count txt) = Waiting.
Proof. intros H. unfold run_chat_turn. rewrite H. split; reflexivity. Qed.

Lemma run_chat_turn_invokes cp tid count txt :
  has_interrupt (get_state (get_app cp) tid) = false ->
  lower txt ∉ ["q"; "exit"] ->
  fst (fst (fst (run_chat_turn cp tid count txt)))
  = checkpointer (fst (invoke (get_app cp) [HumanMessage txt None] tid))
  /\ snd (run_chat_turn cp tid count txt)
     = Invoked (snd (invoke (get_app cp) [HumanMessage txt None] tid)).
Proof.
  intros H Hq. unfold run_chat_turn. rewrite H.
  rewrite bool_decide_eq_false_2 by exact Hq. split; reflexivity.
Qed.

(** *** The [human] node suspends exactly on escalation requests *)




(** *** The graph *)

(** C3.  The graph has the nodes [bot], [tools], [human]; the run enters at
    [bot]; after [bot] the run goes to [tools] exactly when the reply of the
    model carries a tool call and ends otherwise; [tools] leads to [human]
    and [human] back to [bot] whatever the state; and no operation of the
    engine changes the graph, which does not depend on the store. *)
Theorem workflow_graph_shape :
  fst <$> nodes workflow = ["bot"; "tools"; "human"]
  /\ assoc (nodes workflow) "bot" = Some chatbot
  /\ assoc (nodes workflow) "tools" = Some (ToolNode tool_error tools)
  /\ assoc (nodes workflow) "human" = Some human_node
  /\ edges workflow = [(START, "bot"); ("tools", "human"); ("human", "bot")]
  /\ fst <$> branches workflow = ["bot"]
  /\ (forall st, successor workflow START st = inr (Some "bot"))
  /\ (forall st content calls,
        successor workflow "bot"
          {| messages := messages st ++ [AIMessage content calls] |}
        = inr (match calls with [] => None | _ :: _ => Some "tools" end))
  /\ (forall resume c,
        superstep workflow "bot" resume c =
        match llm (SystemMessage "If user needs help, call human_help tool."
                     :: channel_values c) with
        | inl e => StepError e
        | inr (content, calls) =>
            StepDone {| channel_values := channel_values c ++ [AIMessage content calls];
                        cp_next := match calls with [] => None | _ :: _ => Some "tools" end;
                        pending_interrupts := [] |}
        end)
  /\ (forall st, successor workflow "tools" st = inr (Some "human"))
  /\ (forall st, successor workflow "human" st = inr (Some "bot"))
  /\ (forall cp, builder (get_app cp) = workflow)
  /\ (forall cp input tid, builder (fst (invoke (get_app cp) input tid)) = workflow)
  /\ (forall cp ans tid, builder (fst (stream_resume (get_app cp) ans tid)) = workflow).
Proof.
  repeat split; try reflexivity.
  - intros st content calls. rewrite successor_bot. cbn [messages].
    rewrite last_snoc. destruct calls; reflexivity.
  - intros resume c.
    destruct (llm _) as [e|[content calls]] eqn:Hllm.
    + unfold superstep. rewrite node_bot. unfold chatbot. cbn [messages].
      rewrite Hllm. destruct resume; reflexivity.
    + apply superstep_bot. exact Hllm.
  - intros cp ans tid. unfold stream_resume. cbn [checkpointer get_app compile].
    destruct (cp !! tid); reflexivity.
Qed.

(** *** [run_admin] without pending interrupt *)

(** C4.  On a thread that shows no pending interrupt, [run_admin] reports
    that there is nothing to do and returns the store it was given. *)
Theorem run_admin_no_pending_interrupt cp thread_id ans :
  has_interrupt (get_state (get_app cp) thread_id) = false ->
  run_admin cp thread_id ans = (cp, NoPendingTasks).
Proof.
  unfold run_admin, has_interrupt.
  destruct (tasks (get_state (get_app cp) thread_id)) as [|t ts]; [reflexivity|].
  destruct (interrupts t); [reflexivity|discriminate].
Qed.

(** C8, as the program has it.  A thread id without checkpoint is no
    error: [get_state] returns the empty snapshot, and [run_admin] reports
    that there is nothing to do, as it does for a known thread without
    interrupt, and returns the store it was given. *)
Theorem never_seen_thread_is_no_error cp thread_id ans :
  cp !! thread_id = None ->
  get_state (get_app cp) thread_id = {| values := None; next := []; tasks := [] |}
  /\ run_admin cp thread_id ans = (cp, NoPendingTasks).
Proof.
  intros H. unfold run_admin, get_state. cbn [checkpointer get_app compile].
  rewrite H. split; reflexivity.
Qed.

(** *** Escalate, then resume *)

(** C2.  On a thread suspended on [query], [run_admin] with the answer
    [ans] resumes the graph: the [human] node completes, and the checkpoint
    saved on its completion has the old messages followed by the one note
    [HumanMessage("SYSTEM: Admin resolved this: " + ans)], carries no
    interrupt and has [bot] as the node to run.  At the end of the call the
    thread's messages are the old ones, that note, and then only messages of
    the model and of the tools; an interrupt still pending then was raised
    anew, by a tool result that came after the note. *)
Theorem resume_round_trip cp thread_id c query ans :
  cp !! thread_id = Some c ->
  suspended c query ->
  exists c1 c' rest out,
    superstep workflow "human" (Some ans) c = StepDone c1
    /\ channel_values c1 = channel_values c ++ [resolution_note ans]
    /\ pending_interrupts c1 = []
    /\ cp_next c1 = Some "bot"
    /\ resolution_note ans
       = HumanMessage ("SYSTEM: " +:+ ("Admin resolved this: " +:+ ans)) None
    /\ snd (run_admin cp thread_id ans) = Resumed query out
    /\ fst (run_admin cp thread_id ans) !! thread_id = Some c'
    /\ channel_values c' = channel_values c ++ resolution_note ans :: rest
    /\ Forall ai_or_tool rest
    /\ (pending_interrupts c' = []
        \/ exists query', suspended c' query' /\ rest <> []).
Proof.
  intros Hc Hs.
  destruct (run_admin_suspended cp thread_id c query ans Hc Hs) as [Hstep Hrun].
  set (c1 := {| channel_values := channel_values c ++ [resolution_note ans];
                cp_next := Some "bot"; pending_interrupts := [] |}) in *.
  destruct (pregel_loop_history thread_id 24 (<[thread_id := c1]> cp) c1
              (lookup_insert_eq _ _ _)) as (c' & rest & Hc' & Hv & Hr & Hok).
  exists c1, c', rest,
    (snd (pregel_loop workflow thread_id 24 None (<[thread_id := c1]> cp) c1)).
  rewrite Hrun. cbn [fst snd].
  split; [exact Hstep|]. do 5 (split; [reflexivity|]). split; [exact Hc'|].
  assert (Hv' : channel_values c' = channel_values c ++ resolution_note ans :: rest)
    by (rewrite Hv; subst c1; cbn [channel_values]; rewrite <- app_assoc; reflexivity).
  split; [exact Hv'|]. split; [exact Hr|].
  destruct Hok as [Hp|[q' Hq']]; [left; reflexivity|left; exact Hp|].
  right. exists q'. split; [exact Hq'|].
  intros ->. destruct Hq' as (_ & _ & content & n & i & Hl & _).
  rewrite Hv', last_snoc in Hl. discriminate.
Qed.

(** *** At most one pending interrupt *)

(** C7.  In every observable store a thread shows at most one interrupt,
    and the stores [invoke] and [run_admin] produce from it are observable
    again.  A thread that shows an interrupt is suspended on a question, and
    resuming it with [ans] completes the [human] node: the checkpoint saved
    then has no interrupt left and has the resolution note appended to the
    messages, and the note is in the thread's messages at the end of
    [run_admin]. *)
Theorem at_most_one_pending_interrupt cp thread_id :
  observable cp ->
  (forall input tid, observable (checkpointer (fst (invoke (get_app cp) input tid))))
  /\ (forall tid ans, observable (fst (run_admin cp tid ans)))
  /\ interrupt_count (get_state (get_app cp) thread_id) <= 1
  /\ (has_interrupt (get_state (get_app cp) thread_id) = true ->
      forall ans, exists c c1 c' query,
        cp !! thread_id = Some c
        /\ suspended c query
        /\ superstep workflow "human" (Some ans) c = StepDone c1
        /\ pending_interrupts c1 = []
        /\ channel_values c1 = channel_values c ++ [resolution_note ans]
        /\ has_interrupt (get_state (get_app (<[thread_id := c1]> cp)) thread_id) = false
        /\ fst (run_admin cp thread_id ans) !! thread_id = Some c'
        /\ resolution_note ans ∈ channel_values c').
Proof.
  intros Hobs.
  split; [intros; apply invoke_observable; exact Hobs|].
  split; [intros; apply run_admin_observable; exact Hobs|].
  split.
  - unfold interrupt_count, get_state. cbn [checkpointer get_app compile].
    destruct (cp !! thread_id) as [c|] eqn:Hc; cbn; [|lia].
    destruct (cp_next c); cbn; [|lia].
    rewrite length_fmap.
    destruct (observable_ok cp Hobs thread_id c Hc) as [->|(q & _ & -> & _)];
      cbn; lia.
  - intros Hi ans.
    destruct (has_interrupt_inv cp thread_id Hi) as (c & Hc & Hp).
    destruct (observable_ok cp Hobs thread_id c Hc) as [Hnil|[q Hs]];
      [contradiction|].
    destruct (run_admin_suspended cp thread_id c q ans Hc Hs) as [Hstep Hrun].
    set (c1 := {| channel_values := channel_values c ++ [resolution_note ans];
                  cp_next := Some "bot"; pending_interrupts := [] |}) in *.
    destruct (pregel_loop_history thread_id 24 (<[thread_id := c1]> cp) c1
                (lookup_insert_eq _ _ _)) as (c' & rest & Hc' & Hv & _).
    exists c, c1, c', q. rewrite Hrun. cbn [fst].
    split; [exact Hc|]. split; [exact Hs|]. split; [exact Hstep|].
    split; [reflexivity|]. split; [reflexivity|].
    split.
    { rewrite (get_state_checkpoint _ thread_id c1) by apply lookup_insert_eq.
      reflexivity. }
    split; [exact Hc'|].
    rewrite Hv. subst c1. cbn [channel_values].
    apply elem_of_app. left. apply elem_of_app. right. apply list_elem_of_singleton.
    reflexivity.
Qed.

(** *** Threads that never escalate *)

Lemma get_state_values cp tid :
  values (get_state (get_app cp) tid) = channel_values <$> cp !! tid.
Proof.
  unfold get_state. cbn [checkpointer get_app compile].
  destruct (cp !! tid); reflexivity.
Qed.

(** C9, as amended.  When the model answers each input of a sequence
    directly, that is without any tool call, the successive [invoke] calls
    all reach [END], and the thread's messages afterwards are the messages
    it had before followed by each input and its reply, in call order. *)
Theorem direct_replies_history thread_id turns :
  forall cp,
    direct_replies (default [] (values (get_state (get_app cp) thread_id))) turns ->
    snd (invoke_seq cp thread_id (fst <$> turns)) = (fun _ => Finished) <$> turns
    /\ default [] (values (get_state (get_app (fst (invoke_seq cp thread_id (fst <$> turns))))
                             thread_id))
       = default [] (values (get_state (get_app cp) thread_id)) ++ transcript turns.
Proof.
  induction turns as [|[txt reply] turns IH]; intros cp Hd.
  - cbn. rewrite app_nil_r. auto.
  - cbn [direct_replies] in Hd. destruct Hd as [Hllm Hd].
    rewrite get_state_values in Hllm, Hd.
    cbn [fmap list_fmap fst invoke_seq transcript].
    rewrite (invoke_direct_reply cp thread_id txt reply Hllm). cbn [fst snd checkpointer].
    set (cp1 := <[thread_id := _]> cp).
    assert (H1 : default [] (values (get_state (get_app cp1) thread_id))
                 = default [] (channel_values <$> cp !! thread_id)
                   ++ [HumanMessage txt None; AIMessage reply []]).
    { rewrite get_state_values. subst cp1. rewrite lookup_insert_eq. reflexivity. }
    destruct (IH cp1) as [Hout Hmsgs].
    { rewrite H1. exact Hd. }
    change (list_fmap _ _ fst turns) with (fst <$> turns).
    rewrite Hout, Hmsgs, H1, get_state_values, <- app_assoc. split; reflexivity.
Qed.

(** *** The resolution note and its display *)


(** *** What [human_node] raises and returns *)


(** X2.  Whatever the state and whether or not it is resumed, the only
    updates [human_node] returns are the empty one and, when it is resumed
    with [ans] on an escalation request, the one note for [ans]: it adds no
    other message, and an answer given on a state that is no escalation
    request is dropped. *)
Theorem human_node_returns resume st update :
  answer resume (human_node st) = Return update ->
  update = {| messages := [] |}
  \/ exists ans content n i query,
      resume = Some ans
      /\ last (messages st) = Some (ToolMessage content n i)
      /\ escalation_request content query
      /\ update = {| messages := [resolution_note ans] |}.
Proof.
  destruct (human_node_cases st) as [[e ->]|[->|(c & n & i & q & Hl & He & ->)]].
  - destruct resume; discriminate.
  - destruct resume; intros [= <-]; left; reflexivity.
  - destruct resume as [ans|]; [|discriminate].
    intros [= <-]. right. exists ans, c, n, i, q. auto.
Qed.

(** *** Runs, seen from the store *)

(** A run on a thread leaves the other threads alone. *)
Lemma pregel_loop_other g tid tid' limit :
  tid <> tid' ->
  forall resume cp c,
    fst (pregel_loop g tid limit resume cp c) !! tid' = cp !! tid'.
Proof.
  intros Hne. induction limit as [|limit IH]; intros resume cp c.
  - cbn [pregel_loop]. destruct (cp_next c); reflexivity.
  - cbn [pregel_loop]. destruct (cp_next c) as [n|]; [|reflexivity].
    destruct (superstep g n resume c) as [c'|c'|e].
    + rewrite IH. apply lookup_insert_ne. exact Hne.
    + cbn [fst]. apply lookup_insert_ne. exact Hne.
    + reflexivity.
Qed.

Lemma invoke_other cp input tid tid' :
  tid <> tid' ->
  checkpointer (fst (invoke (get_app cp) input tid)) !! tid' = cp !! tid'.
Proof.
  intros Hne. unfold invoke. rewrite workflow_get_app, successor_start.
  cbn [fst checkpointer get_app compile].
  rewrite pregel_loop_other by exact Hne. apply lookup_insert_ne. exact Hne.
Qed.

(** The store a call of [run_admin] returns: the one it got, or the one
    the resumed run leaves. *)
Lemma run_admin_store cp tid ans :
  (fst (run_admin cp tid ans) = cp /\ forall q out, snd (run_admin cp tid ans) <> Resumed q out)
  \/ exists c n,
      cp !! tid = Some c /\ cp_next c = Some n
      /\ fst (run_admin cp tid ans)
         = fst (pregel_loop workflow tid recursion_limit (Some ans) cp c)
      /\ exists q, snd (run_admin cp tid ans)
         = Resumed q (snd (pregel_loop workflow tid recursion_limit (Some ans) cp c)).
Proof.
  unfold run_admin, get_state. cbn [checkpointer get_app compile].
  destruct (cp !! tid) as [c|] eqn:Hc; cbn [tasks].
  2:{ left. split; [reflexivity|discriminate]. }
  destruct (cp_next c) as [n|] eqn:Hn.
  2:{ left. split; [reflexivity|discriminate]. }
  cbn [interrupts]. destruct (pending_interrupts c) as [|v vs]; cbn [fmap list_fmap].
  { left. split; [reflexivity|discriminate]. }
  cbn [value]. destruct (py_getitem v "query") as [e|q].
  { left. split; [reflexivity|discriminate]. }
  right. exists c, n. split; [reflexivity|]. split; [exact Hn|].
  unfold stream_resume. rewrite workflow_get_app. cbn [checkpointer get_app compile].
  rewrite Hc. cbn [fst snd checkpointer]. split; [reflexivity|]. exists q. reflexivity.
Qed.

(** The store a turn of [run_chat] returns: the one it got, or the one the
    [invoke] of the line leaves. *)
Lemma run_chat_turn_store cp tid count txt :
  (fst (fst (fst (run_chat_turn cp tid count txt))) = cp
   /\ forall out, snd (run_chat_turn cp tid count txt) <> Invoked out)
  \/ (fst (fst (fst (run_chat_turn cp tid count txt)))
      = checkpointer (fst (invoke (get_app cp) [HumanMessage txt None] tid))
      /\ snd (run_chat_turn cp tid count txt)
         = Invoked (snd (invoke (get_app cp) [HumanMessage txt None] tid))).
Proof.
  unfold run_chat_turn.
  destruct (has_interrupt _); [left; split; [reflexivity|discriminate]|].
  destruct (bool_decide _); [left; split; [reflexivity|discriminate]|].
  right. split; reflexivity.
Qed.

(** The graph reaches [END] only from [bot], on a reply without tool call. *)
Lemma superstep_end n resume c c' :
  superstep workflow n resume c = StepDone c' ->
  cp_next c' = None ->
  exists content, last (channel_values c') = Some (AIMessage content []).
Proof.
  unfold superstep.
  destruct (assoc (nodes workflow) n) as [action|] eqn:Hn; [|discriminate].
  apply assoc_nodes_inv in Hn as [[-> ->]|[[-> ->]|[-> ->]]].
  - destruct (chatbot_cases {| messages := channel_values c |})
      as [[e ->]|(content & calls & ->)].
    + destruct resume; discriminate.
    + assert (Ha : answer resume (Return {| messages := [AIMessage content calls] |})
                   = Return {| messages := [AIMessage content calls] |})
        by (destruct resume; reflexivity).
      rewrite Ha. cbn [messages]. rewrite successor_bot. cbn [messages].
      unfold add_messages. rewrite last_snoc.
      destruct calls; intros [= <-]; cbn [cp_next channel_values]; [|discriminate].
      intros _. exists content. apply last_snoc.
  - unfold ToolNode. cbn [messages].
    destruct (last (channel_values c)) as [[| |content calls|]|];
      try (destruct resume; discriminate).
    assert (Ha : forall u : State, answer resume (Return u) = Return u)
      by (destruct resume; reflexivity).
    rewrite Ha. cbn [messages]. rewrite successor_tools.
    intros [= <-]. discriminate.
  - destruct (human_node_cases {| messages := channel_values c |})
      as [[e ->]|[->|(content & k & i & q & Hl & He & ->)]].
    + destruct resume; discriminate.
    + assert (Ha : forall u : State, answer resume (Return u) = Return u)
        by (destruct resume; reflexivity).
      rewrite Ha. cbn [messages]. rewrite successor_human.
      intros [= <-]. discriminate.
    + destruct resume as [ans|]; simpl answer; cbn [messages]; [|discriminate].
      rewrite successor_human. intros [= <-]. discriminate.
Qed.

(** How a run ended, and the checkpoint it left on its thread. *)
Lemma pregel_loop_outcome tid limit :
  forall resume cp c,
    cp !! tid = Some c ->
    exists c',
      fst (pregel_loop workflow tid limit resume cp c) !! tid = Some c'
      /\ match snd (pregel_loop workflow tid limit resume cp c) with
         | Finished =>
             cp_next c' = None
             /\ (cp_next c <> None ->
                 pending_interrupts c' = []
                 /\ exists content, last (channel_values c') = Some (AIMessage content []))
         | Interrupted => exists query, suspended c' query
         | Raised _ => c' = c \/ pending_interrupts c' = []
         end.
Proof.
  induction limit as [|limit IH]; intros resume cp c Hc.
  - exists c. cbn [pregel_loop]. destruct (cp_next c) eqn:Hn; cbn [fst snd].
    + split; [exact Hc|]. left. reflexivity.
    + split; [exact Hc|]. split; [reflexivity|]. intros H. destruct (H eq_refl).
  - destruct (cp_next c) as [n|] eqn:Hn.
    2:{ rewrite pregel_loop_end by exact Hn. exists c. cbn [fst snd].
        split; [exact Hc|]. split; [exact Hn|]. intros H. destruct (H eq_refl). }
    rewrite (pregel_loop_step _ _ _ _ _ _ n) by exact Hn.
    pose proof (superstep_cases n resume c) as Hcases.
    pose proof (superstep_end n resume c) as Hend.
    destruct (superstep workflow n resume c) as [c1|c1|e].
    + destruct Hcases as [Hp1 _].
      destruct (IH None (<[tid := c1]> cp) c1 (lookup_insert_eq _ _ _))
        as (c' & Hc' & Hout).
      exists c'. split; [exact Hc'|].
      destruct (snd (pregel_loop workflow tid limit None (<[tid := c1]> cp) c1)).
      * destruct Hout as [Hnone Hlast]. split; [exact Hnone|]. intros _.
        destruct (cp_next c1) as [n1|] eqn:Hn1.
        -- apply Hlast. discriminate.
        -- assert (c' = c1) as ->.
           { rewrite pregel_loop_end in Hc' by exact Hn1. cbn [fst] in Hc'.
             rewrite lookup_insert_eq in Hc'. congruence. }
           split; [exact Hp1|]. apply (Hend c1 eq_refl Hn1).
      * exact Hout.
      * right. destruct Hout as [->|Hp]; [exact Hp1|exact Hp].
    + exists c1. cbn [fst snd]. rewrite lookup_insert_eq. split; [reflexivity|].
      apply Hcases.
    + exists c. cbn [fst snd]. split; [exact Hc|]. left. reflexivity.
Qed.

(** What a run appends: messages of the model and of the tools, and the
    resolution note when it is resumed. *)
Lemma pregel_loop_kinds tid limit :
  forall resume cp c,
    cp !! tid = Some c ->
    exists c' rest,
      fst (pregel_loop workflow tid limit resume cp c) !! tid = Some c'
      /\ channel_values c' = channel_values c ++ rest
      /\ Forall (fun m => ai_or_tool m \/ exists ans, m = resolution_note ans) rest.
Proof.
  induction limit as [|limit IH]; intros resume cp c Hc.
  - exists c, []. rewrite app_nil_r.
    cbn [pregel_loop]. destruct (cp_next c); auto.
  - destruct (cp_next c) as [n|] eqn:Hn.
    2:{ rewrite pregel_loop_end by exact Hn. exists c, []. rewrite app_nil_r. auto. }
    rewrite (pregel_loop_step _ _ _ _ _ _ n) by exact Hn.
    pose proof (superstep_cases n resume c) as Hcases.
    destruct (superstep workflow n resume c) as [c1|c1|e].
    + assert (H1 : exists rest1,
                 channel_values c1 = channel_values c ++ rest1
                 /\ Forall (fun m => ai_or_tool m \/ exists ans, m = resolution_note ans)
                      rest1).
      { destruct Hcases as [_ [(rest1 & Hv1 & Hr1)|(ans & _ & _ & _ & Hv1)]].
        - exists rest1. split; [exact Hv1|].
          eapply Forall_impl; [exact Hr1|]. intros m Hm. left. exact Hm.
        - exists [resolution_note ans]. split; [exact Hv1|].
          constructor; [right; eauto|constructor]. }
      destruct H1 as (rest1 & Hv1 & Hr1).
      destruct (IH None (<[tid := c1]> cp) c1 (lookup_insert_eq _ _ _))
        as (c' & rest & Hc' & Hv & Hr).
      exists c', (rest1 ++ rest). split; [exact Hc'|].
      split; [rewrite Hv, Hv1, app_assoc; reflexivity|].
      apply Forall_app; auto.
    + destruct Hcases as (_ & _ & Hv1 & _).
      exists c1, []. cbn [fst]. rewrite lookup_insert_eq, app_nil_r. auto.
    + exists c, []. rewrite app_nil_r. auto.
Qed.

(** What a turn of [run_chat] counts and prints. *)
Lemma run_chat_turn_count cp tid count txt :
  snd (fst (fst (run_chat_turn cp tid count txt)))
  = if (count <? length (default [] (values (get_state (get_app cp) tid))))%nat
    then length (default [] (values (get_state (get_app cp) tid)))
    else count.
Proof.
  unfold run_chat_turn.
  destruct (has_interrupt _); [|destruct (bool_decide _)];
    cbn [fst snd]; destruct (_ <? _)%nat; reflexivity.
Qed.

Lemma run_chat_turn_lines cp tid count txt :
  snd (fst (run_chat_turn cp tid count txt))
  = if (count <? length (default [] (values (get_state (get_app cp) tid))))%nat
    then omap display (drop count (default [] (values (get_state (get_app cp) tid))))
    else [].
Proof.
  unfold run_chat_turn.
  destruct (has_interrupt _); [|destruct (bool_decide _)];
    cbn [fst snd]; destruct (_ <? _)%nat; reflexivity.
Qed.

Lemma has_interrupt_checkpoint cp tid c :
  cp !! tid = Some c ->
  has_interrupt (get_state (get_app cp) tid)
  = match cp_next c, pending_interrupts c with
    | Some _, _ :: _ => true
    | _, _ => false
    end.
Proof.
  intros Hc. rewrite (get_state_checkpoint cp tid c Hc). unfold has_interrupt.
  cbn [tasks]. destruct (cp_next c); [|reflexivity].
  cbn [interrupts]. destruct (pending_interrupts c); reflexivity.
Qed.

Lemma run_chat_turn_waiting_iff cp tid count txt :
  snd (run_chat_turn cp tid count txt) = Waiting
  <-> has_interrupt (get_state (get_app cp) tid) = true.
Proof.
  unfold run_chat_turn. destruct (has_interrupt _).
  - split; reflexivity.
  - destruct (bool_decide _); split; discriminate.
Qed.

(** How an [invoke] ended, and the checkpoint it left on its thread. *)
Lemma invoke_outcome cp input tid :
  exists c',
    checkpointer (fst (invoke (get_app cp) input tid)) !! tid = Some c'
    /\ match snd (invoke (get_app cp) input tid) with
       | Finished =>
           cp_next c' = None /\ pending_interrupts c' = []
           /\ exists content, last (channel_values c') = Some (AIMessage content [])
       | Interrupted => exists query, suspended c' query
       | Raised _ => pending_interrupts c' = []
       end.
Proof.
  unfold invoke. rewrite workflow_get_app, successor_start.
  cbn [fst snd checkpointer get_app compile].
  set (c := {| channel_values := _; cp_next := _; pending_interrupts := _ |}).
  destruct (pregel_loop_outcome tid recursion_limit None (<[tid := c]> cp) c
              (lookup_insert_eq _ _ _)) as (c' & Hc' & Hout).
  exists c'. split; [exact Hc'|].
  destruct (snd (pregel_loop workflow tid recursion_limit None (<[tid := c]> cp) c)).
  - destruct Hout as [Hn Hrest]. destruct Hrest as [Hp Hl]; [discriminate|]. auto.
  - exact Hout.
  - destruct Hout as [->|Hp]; [reflexivity|exact Hp].
Qed.

(** X3.  After an [invoke] the thread shows a pending interrupt exactly
    when the [invoke] ended interrupted, and that is exactly when the next
    turn of [run_chat] on the thread waits instead of reading a line. *)
Theorem interrupt_shown_iff_interrupted cp tid input :
  (has_interrupt
     (get_state (get_app (checkpointer (fst (invoke (get_app cp) input tid)))) tid) = true
   <-> snd (invoke (get_app cp) input tid) = Interrupted)
  /\ forall count txt,
      snd (run_chat_turn (checkpointer (fst (invoke (get_app cp) input tid))) tid count txt)
      = Waiting
      <-> snd (invoke (get_app cp) input tid) = Interrupted.
Proof.
  assert (H : has_interrupt
                (get_state (get_app (checkpointer (fst (invoke (get_app cp) input tid)))) tid)
              = true
              <-> snd (invoke (get_app cp) input tid) = Interrupted).
  { destruct (invoke_outcome cp input tid) as (c' & Hc' & Hout).
    rewrite (has_interrupt_checkpoint _ tid c' Hc').
    destruct (snd (invoke (get_app cp) input tid)).
    - destruct Hout as (-> & _). split; discriminate.
    - destruct Hout as (q & -> & -> & _). split; reflexivity.
    - rewrite Hout. destruct (cp_next c'); split; discriminate. }
  split; [exact H|].
  intros count txt. rewrite run_chat_turn_waiting_iff. exact H.
Qed.

(** X4.  An [invoke] that reaches [END] leaves the thread with no node to
    run, no interrupt, and a reply of the model without tool call as its
    last message. *)
Theorem finished_invoke_ends_with_reply cp tid input :
  snd (invoke (get_app cp) input tid) = Finished ->
  exists c content,
    checkpointer (fst (invoke (get_app cp) input tid)) !! tid = Some c
    /\ cp_next c = None
    /\ pending_interrupts c = []
    /\ last (channel_values c) = Some (AIMessage content []).
Proof.
  intros H. destruct (invoke_outcome cp input tid) as (c' & Hc' & Hout).
  rewrite H in Hout. destruct Hout as (Hn & Hp & content & Hl).
  exists c', content. auto.
Qed.

(** X5.  Once [run_admin] has resumed a thread and the run has reached
    [END], the question is closed: the thread ends with a reply of the model
    without tool call, and any further [run_admin] on it reports that there
    is nothing to do and returns the store unchanged. *)
Theorem answered_question_is_closed cp tid ans query :
  snd (run_admin cp tid ans) = Resumed query Finished ->
  (forall ans',
      run_admin (fst (run_admin cp tid ans)) tid ans'
      = (fst (run_admin cp tid ans), NoPendingTasks))
  /\ exists c content,
      fst (run_admin cp tid ans) !! tid = Some c
      /\ cp_next c = None
      /\ last (channel_values c) = Some (AIMessage content []).
Proof.
  intros H.
  destruct (run_admin_store cp tid ans) as [[_ Hno]|(c & n & Hc & Hn & Hst & q & Hout)].
  { destruct (Hno _ _ H). }
  rewrite Hout in H.
  assert (Hfin : snd (pregel_loop workflow tid recursion_limit (Some ans) cp c) = Finished)
    by congruence.
  destruct (pregel_loop_outcome tid recursion_limit (Some ans) cp c Hc)
    as (c' & Hc' & Hres).
  rewrite Hfin in Hres. destruct Hres as [Hn' Hrest].
  destruct Hrest as (Hp & content & Hl); [rewrite Hn; discriminate|].
  rewrite Hst. split.
  - intros ans'. unfold run_admin.
    rewrite (get_state_checkpoint _ tid c' Hc'), Hn'. reflexivity.
  - exists c', content. auto.
Qed.

(** X6.  A turn of [run_chat] and a call of [run_admin] on a thread leave
    the checkpoint of every other thread as it was. *)
Theorem other_threads_untouched cp tid tid' :
  tid <> tid' ->
  (forall count txt,
      fst (fst (fst (run_chat_turn cp tid count txt))) !! tid' = cp !! tid')
  /\ (forall ans, fst (run_admin cp tid ans) !! tid' = cp !! tid').
Proof.
  intros Hne. split.
  - intros count txt.
    destruct (run_chat_turn_store cp tid count txt) as [[-> _]|[-> _]];
      [reflexivity|apply invoke_other; exact Hne].
  - intros ans.
    destruct (run_admin_store cp tid ans) as [[-> _]|(c & n & _ & _ & -> & _)];
      [reflexivity|apply pregel_loop_other; exact Hne].
Qed.

(** X7.  A turn of [run_chat] and a call of [run_admin] only append to the
    messages of their thread: what [get_state] showed before is a prefix of
    what it shows after. *)
Theorem messages_only_grow cp tid :
  (forall count txt, exists rest,
      default [] (values (get_state
        (get_app (fst (fst (fst (run_chat_turn cp tid count txt))))) tid))
      = default [] (values (get_state (get_app cp) tid)) ++ rest)
  /\ (forall ans, exists rest,
      default [] (values (get_state (get_app (fst (run_admin cp tid ans))) tid))
      = default [] (values (get_state (get_app cp) tid)) ++ rest).
Proof.
  split.
  - intros count txt. rewrite !get_state_values.
    destruct (run_chat_turn_store cp tid count txt) as [[-> _]|[-> _]].
    + exists []. rewrite app_nil_r. reflexivity.
    + destruct (invoke_appends cp [HumanMessage txt None] tid)
        as (c' & rest & Hc' & Hv & _).
      rewrite Hc'. cbn. rewrite Hv. eexists. reflexivity.
  - intros ans. rewrite !get_state_values.
    destruct (cp !! tid) as [c|] eqn:Hc.
    + destruct (run_admin_appends cp tid ans c Hc) as (c' & rest & Hc' & Hv).
      rewrite Hc'. cbn. rewrite Hv. exists rest. reflexivity.
    + destruct (run_admin_store cp tid ans) as [[-> _]|(c & n & Hc' & _)];
        [|congruence].
      rewrite Hc. exists []. reflexivity.
Qed.

(** X8.  In every store the program produces, a stored message is a
    message of the model, a tool message, or a [HumanMessage] without name:
    the system instruction given to the model is never stored, and every
    [HumanMessage], a line of the user as well as a note of the admin, is
    one that [run_chat] prints as a SYSTEM line. *)
Theorem session_message_kinds cp :
  session cp ->
  forall tid c m,
    cp !! tid = Some c ->
    m ∈ channel_values c ->
    (msg_type m = "human" /\ msg_name m = None
     /\ display m = Some (SystemLine (msg_content m)))
    \/ msg_type m = "ai"
    \/ msg_type m = "tool".
Proof.
  intros Hs.
  assert (Hinv : forall tid c m,
             cp !! tid = Some c -> m ∈ channel_values c ->
             (exists txt, m = HumanMessage txt None) \/ ai_or_tool m).
  { induction Hs as [|cp tid0 count txt Hs IH|cp tid0 ans Hs IH]; intros tid c m Hc Hm.
    - rewrite lookup_empty in Hc. discriminate.
    - destruct (run_chat_turn_store cp tid0 count txt) as [[Hst _]|[Hst _]];
        rewrite Hst in Hc; [eauto|].
      destruct (decide (tid0 = tid)) as [->|Hne].
      2:{ rewrite invoke_other in Hc by exact Hne. eauto. }
      destruct (invoke_appends cp [HumanMessage txt None] tid)
        as (c' & rest & Hc' & Hv & Hr).
      rewrite Hc' in Hc. injection Hc as <-. rewrite Hv in Hm.
      apply elem_of_app in Hm as [Hm|Hm].
      { destruct (cp !! tid) as [c0|] eqn:Hc0; [eauto|].
        cbn in Hm. apply elem_of_nil in Hm. destruct Hm. }
      apply elem_of_app in Hm as [Hm|Hm].
      { apply list_elem_of_singleton in Hm as ->. left. eauto. }
      right. rewrite Forall_forall in Hr. auto.
    - destruct (run_admin_store cp tid0 ans) as [[Hst _]|(c0 & n & Hc0 & _ & Hst & _)];
        rewrite Hst in Hc; [eauto|].
      destruct (decide (tid0 = tid)) as [->|Hne].
      2:{ rewrite pregel_loop_other in Hc by exact Hne. eauto. }
      destruct (pregel_loop_kinds tid recursion_limit (Some ans) cp c0 Hc0)
        as (c' & rest & Hc' & Hv & Hr).
      rewrite Hc' in Hc. injection Hc as <-. rewrite Hv in Hm.
      apply elem_of_app in Hm as [Hm|Hm]; [eauto|].
      rewrite Forall_forall in Hr. destruct (Hr m Hm) as [Hk|[a ->]]; [auto|].
      left. eexists. reflexivity. }
  intros tid c m Hc Hm.
  destruct (Hinv tid c m Hc Hm) as [[txt ->]|[Hk|Hk]]; auto.
Qed.

(** X9.  Successive turns of [run_chat] show each message once.  A turn
    entered with a count that is within the history prints the messages from
    that count on and leaves with the length of the history; a later turn on
    a store whose history has grown by [added] prints [added] and nothing
    else.  The store the turn itself leaves is such a store. *)
Theorem new_messages_shown_once cp cp' tid count txt txt' added :
  count <= length (default [] (values (get_state (get_app cp) tid))) ->
  default [] (values (get_state (get_app cp') tid))
  = default [] (values (get_state (get_app cp) tid)) ++ added ->
  snd (fst (run_chat_turn cp tid count txt))
  = omap display (drop count (default [] (values (get_state (get_app cp) tid))))
  /\ snd (fst (fst (run_chat_turn cp tid count txt)))
     = length (default [] (values (get_state (get_app cp) tid)))
  /\ snd (fst (run_chat_turn cp' tid
                 (snd (fst (fst (run_chat_turn cp tid count txt)))) txt'))
     = omap display added
  /\ snd (fst (fst (run_chat_turn cp' tid
                      (snd (fst (fst (run_chat_turn cp tid count txt)))) txt')))
     = length (default [] (values (get_state (get_app cp') tid)))
  /\ exists added0,
      default [] (values (get_state
        (get_app (fst (fst (fst (run_chat_turn cp tid count txt))))) tid))
      = default [] (values (get_state (get_app cp) tid)) ++ added0.
Proof.
  intros Hle Hext.
  set (msgs := default [] (values (get_state (get_app cp) tid))) in *.
  assert (Hcount : snd (fst (fst (run_chat_turn cp tid count txt))) = length msgs).
  { rewrite run_chat_turn_count. fold msgs.
    destruct (Nat.ltb_spec count (length msgs)); [reflexivity|lia]. }
  split.
  { rewrite run_chat_turn_lines. fold msgs.
    destruct (Nat.ltb_spec count (length msgs)); [reflexivity|].
    rewrite drop_ge by lia. reflexivity. }
  split; [exact Hcount|].
  rewrite Hcount, run_chat_turn_lines, run_chat_turn_count, Hext, length_app.
  split.
  { destruct (Nat.ltb_spec (length msgs) (length msgs + length added)).
    - rewrite drop_app_length. reflexivity.
    - destruct added; [reflexivity|cbn in *; lia]. }
  split.
  { destruct (Nat.ltb_spec (length msgs) (length msgs + length added));
      [reflexivity|].
    destruct added; cbn in *; lia. }
  subst msgs. rewrite !get_state_values.
  destruct (run_chat_turn_store cp tid count txt) as [[-> _]|[-> _]].
  - exists []. rewrite app_nil_r. reflexivity.
  - destruct (invoke_appends cp [HumanMessage txt None] tid)
      as (c' & rest & Hc' & Hv & _).
    rewrite Hc'. cbn. rewrite Hv. eexists. reflexivity.
Qed.

(** X10.  On a store the program's runs can produce, [run_admin] never
    fails to find the query of the interrupt: either the thread shows no
    interrupt and it reports that there is nothing to do, leaving the store
    as it is, or the thread is suspended on a question and it resumes the
    graph with that question shown; the thread then shows an interrupt again
    exactly when the resumed run was interrupted anew. *)
Theorem run_admin_reports_or_resumes cp tid ans :
  observable cp ->
  (has_interrupt (get_state (get_app cp) tid) = false
   /\ run_admin cp tid ans = (cp, NoPendingTasks))
  \/ (has_interrupt (get_state (get_app cp) tid) = true
      /\ exists c query out,
          cp !! tid = Some c
          /\ suspended c query
          /\ snd (run_admin cp tid ans) = Resumed query out
          /\ (has_interrupt (get_state (get_app (fst (run_admin cp tid ans))) tid) = true
              <-> out = Interrupted)).
Proof.
  intros Hobs.
  destruct (has_interrupt (get_state (get_app cp) tid)) eqn:Hi.
  - right. split; [reflexivity|].
    destruct (has_interrupt_inv cp tid Hi) as (c & Hc & Hp).
    destruct (observable_ok cp Hobs tid c Hc) as [Hnil|[q Hs]]; [contradiction|].
    destruct (run_admin_suspended cp tid c q ans Hc Hs) as [_ Hrun].
    set (c1 := {| channel_values := channel_values c ++ [resolution_note ans];
                  cp_next := Some "bot"; pending_interrupts := [] |}) in *.
    destruct (pregel_loop_outcome tid 24 None (<[tid := c1]> cp) c1
                (lookup_insert_eq _ _ _)) as (c' & Hc' & Hout).
    exists c, q,
      (snd (pregel_loop workflow tid 24 None (<[tid := c1]> cp) c1)).
    rewrite Hrun. cbn [fst snd].
    split; [exact Hc|]. split; [exact Hs|]. split; [reflexivity|].
    rewrite (has_interrupt_checkpoint _ tid c' Hc').
    destruct (snd (pregel_loop workflow tid 24 None (<[tid := c1]> cp) c1)).
    + destruct Hout as [-> _]. split; discriminate.
    + destruct Hout as (q' & -> & -> & _). split; reflexivity.
    + assert (Hp' : pending_interrupts c' = [])
        by (destruct Hout as [->|Hp']; [reflexivity|exact Hp']).
      rewrite Hp'. destruct (cp_next c'); split; discriminate.
  - left. split; [reflexivity|].
    revert Hi. unfold run_admin, has_interrupt.
    destruct (tasks (get_state (get_app cp) tid)) as [|t ts]; [reflexivity|].
    destruct (interrupts t); [reflexivity|discriminate].
Qed.

(** *** After the [tools] node

    With a [json] module whose decoder inverts its encoder on the marker, and
    a [ToolNode] whose error texts are not JSON. *)

Section AfterTools.

(** [json.loads] reads the text of [human_help] back as the marker, with a
    text for the query. *)
Hypothesis json_reads_marker :
  forall query, exists query',
    json_loads (human_help query)
    = Some (PDict [(str "need_human", PBool true); (str "query", PStr query')]).

Hypothesis tool_error_not_json : forall call, json_loads (tool_error call) = None.









End AfterTools.

End Graph.

(** ** The [json] codec on the marker of [human_help] *)

(** ** Code points *)

Lemma codepoint_eq (a b : codepoint) : ord a = ord b -> a = b.
Proof.
  destruct a as [n Hn], b as [m Hm]. cbn. intros ->. f_equal.
  apply Eqdep_dec.UIP_dec, bool_dec.
Qed.




Lemma pystr_eqb_eq a b : pystr_eqb a b = true <-> a = b.
Proof.
  revert b. induction a as [|x a IH]; intros [|y b]; cbn; try (split; [discriminate|discriminate]).
  - split; reflexivity.
  - rewrite andb_true_iff, N.eqb_eq, IH. split.
    + intros [H ->]. f_equal. apply codepoint_eq, H.
    + intros [= -> ->]. auto.
Qed.

#[local] Arguments String.append : simpl nomatch.


(** *** Bit operations on surrogates *)

Lemma lor_shifted a b k : (b < 2 ^ k)%N -> N.lor (a * 2 ^ k) b = (a * 2 ^ k + b)%N.
Proof.
  intros Hb.
  assert (Hland : N.land (a * 2 ^ k) b = 0%N).
  { apply N.bits_inj. intros i. rewrite N.land_spec, N.bits_0.
    destruct (N.lt_ge_cases i k) as [Hi|Hi].
    - rewrite N.mul_pow2_bits_low by exact Hi. reflexivity.
    - rewrite <- (N.mod_small b (2 ^ k)) by exact Hb.
      rewrite N.mod_pow2_bits_high by exact Hi. apply andb_false_r. }
  rewrite <- N.lxor_lor by exact Hland.
  symmetry. apply N.add_nocarry_lxor, Hland.
Qed.



Lemma join_pair_arith hi lo :
  PyJson.is_high_surrogate hi = true -> PyJson.is_low_surrogate lo = true ->
  PyJson.join_pair hi lo = (0x10000 + (hi - 0xd800) * 1024 + (lo - 0xdc00))%N.
Proof.
  unfold PyJson.is_high_surrogate, PyJson.is_low_surrogate, PyJson.join_pair.
  rewrite !andb_true_iff, !N.leb_le. intros [H1 H2] [H3 H4].
  rewrite N.shiftl_mul_pow2, lor_shifted by (change (2 ^ 10)%N with 1024%N; lia).
  change (2 ^ 10)%N with 1024%N. lia.
Qed.

Lemma join_pair_lt hi lo :
  PyJson.is_high_surrogate hi = true -> PyJson.is_low_surrogate lo = true ->
  (0x10000 <= PyJson.join_pair hi lo < 0x110000)%N.
Proof.
  intros Hh Hl. rewrite (join_pair_arith hi lo Hh Hl).
  unfold PyJson.is_high_surrogate, PyJson.is_low_surrogate in *.
  rewrite !andb_true_iff, !N.leb_le in *. lia.
Qed.

(** *** Hexadecimal escapes *)



(** *** [scanstring] on what [escape] writes *)

Lemma scanstring_raw a rest :
  Ascii.eqb a PyJson.dquote = false -> Ascii.eqb a PyJson.backslash = false ->
  (N_of_ascii a <? 32)%N = false ->
  PyJson.scanstring (String a rest)
  = PyJson.prepend (chr (N_of_ascii a)) (PyJson.scanstring rest).
Proof. intros H1 H2 H3. cbn [PyJson.scanstring]. rewrite H1, H2, H3. reflexivity. Qed.











Lemma starts_low_escape_quote rest :
  PyJson.starts_low_escape (String PyJson.dquote rest) = false.
Proof. reflexivity. Qed.














(** ** The scenarios, run *)

(** Thread [t1]: the request for a refund is escalated and the run stops in
    the [human] node. *)
Example refund_is_escalated :
  let r := invoke (get_app demo_dumps PyJson.loads demo_llm demo_tool_error ∅)
             [HumanMessage "I need a refund for order 42." None] "t1" in
  checkpointer (fst r) = refund_store /\ snd r = Interrupted.
Proof. vm_compute. split; reflexivity. Qed.

(** Thread [t1]: the admin's answer is folded into the history and the model
    replies to it. *)
Example refund_is_resolved :
  let r := run_admin demo_dumps PyJson.loads demo_llm demo_tool_error refund_store "t1"
             "Refund approved, 5 business days." in
  snd r = Resumed (PStr "refund request order 42.") Finished
  /\ get_state (get_app demo_dumps PyJson.loads demo_llm demo_tool_error (fst r)) "t1"
     = {| values :=
            Some (refund_history ++
                  [HumanMessage "SYSTEM: Admin resolved this: Refund approved, 5 business days."
                     None;
                   AIMessage
                     "Done: SYSTEM: Admin resolved this: Refund approved, 5 business days."
                     []]);
          next := [];
          tasks := [] |}.
Proof. vm_compute. split; reflexivity. Qed.

(** Thread [t2]: a direct reply, and no interrupt at any point. *)
Example hours_are_answered :
  let r := invoke (get_app demo_dumps PyJson.loads demo_llm demo_tool_error ∅)
             [HumanMessage "What are your hours?" None] "t2" in
  checkpointer (fst r) = hours_store /\ snd r = Finished.
Proof. vm_compute. split; reflexivity. Qed.

(** C6, where the program departs from it.  A tool result that is no
    escalation request, the error text [ToolNode] answers to a call of an
    unknown tool, makes [human_node] raise [JSONDecodeError] instead of
    returning the empty update; the [invoke] of a model that asks for such a
    tool ends with that exception, in the [human] node. *)
Theorem human_node_raises_on_tool_error :
  PyJson.loads (demo_tool_error stray_call) = None
  /\ human_node PyJson.loads {| messages := stray_history |} = Raise JSONDecodeError
  /\ human_node PyJson.loads {| messages := stray_history |}
     <> Return {| messages := [] |}
  /\ let r := invoke (get_app demo_dumps PyJson.loads stray_llm demo_tool_error ∅)
                [HumanMessage "hi" None] "t3" in
     snd r = Raised JSONDecodeError
     /\ checkpointer (fst r) !! "t3"
        = Some {| channel_values := stray_history;
                  cp_next := Some "human";
                  pending_interrupts := [] |}.
Proof.
  split; [vm_compute; reflexivity|].
  split; [vm_compute; reflexivity|].
  split; [vm_compute; discriminate|].
  vm_compute. split; reflexivity.
Qed.

(** ** Instances of the properties *)

Lemma refund_marker_escalation :
  escalation_request PyJson.loads refund_marker (PStr "refund request order 42.").
Proof.
  exists [(str "need_human", PBool true); (str "query", PStr "refund request order 42.")].
  repeat split; vm_compute; reflexivity.
Defined.

Lemma refund_checkpoint_suspended :
  suspended PyJson.loads refund_checkpoint (PStr "refund request order 42.").
Proof.
  split; [reflexivity|]. split; [reflexivity|].
  exists refund_marker, "human_help", "call_1".
  split; [reflexivity|exact refund_marker_escalation].
Defined.

Lemma refund_store_observable :
  observable demo_dumps PyJson.loads demo_llm demo_tool_error refund_store.
Proof.
  assert (E : checkpointer
                (fst (invoke (get_app demo_dumps PyJson.loads demo_llm demo_tool_error ∅)
                        [HumanMessage "I need a refund for order 42." None] "t1"))
              = refund_store) by (vm_compute; reflexivity).
  rewrite <- E. apply invoke_observable, obs_empty.
Defined.





(** C9 fails on the program as it is stated: when the model asks for a tool
    that is not bound, no escalation is triggered (the run is not
    interrupted and the thread shows no interrupt), and yet the history is
    not the input followed by the reply: the error text of the tool comes
    after them, and the [invoke] fails in the [human] node. *)
Lemma tool_call_without_escalation :
  snd (invoke (get_app demo_dumps PyJson.loads stray_llm demo_tool_error ∅)
         [HumanMessage "hi" None] "t3") <> Interrupted
  /\ has_interrupt
       (get_state
          (get_app demo_dumps PyJson.loads stray_llm demo_tool_error
             (checkpointer
                (fst (invoke (get_app demo_dumps PyJson.loads stray_llm demo_tool_error ∅)
                        [HumanMessage "hi" None] "t3")))) "t3") = false
  /\ stray_llm [SystemMessage "If user needs help, call human_help tool.";
                HumanMessage "hi" None] = inr ("", [stray_call])
  /\ values
       (get_state
          (get_app demo_dumps PyJson.loads stray_llm demo_tool_error
             (checkpointer
                (fst (invoke (get_app demo_dumps PyJson.loads stray_llm demo_tool_error ∅)
                        [HumanMessage "hi" None] "t3")))) "t3")
     <> Some [HumanMessage "hi" None; AIMessage "" [stray_call]]
  /\ values
       (get_state
          (get_app demo_dumps PyJson.loads stray_llm demo_tool_error
             (checkpointer
                (fst (invoke (get_app demo_dumps PyJson.loads stray_llm demo_tool_error ∅)
                        [HumanMessage "hi" None] "t3")))) "t3")
     = Some ([HumanMessage "hi" None; AIMessage "" [stray_call]]
             ++ [ToolMessage (demo_tool_error stray_call) "search" "call_1"])
  /\ snd (invoke (get_app demo_dumps PyJson.loads stray_llm demo_tool_error ∅)
            [HumanMessage "hi" None] "t3") = Raised JSONDecodeError.
Proof.
  split; [vm_compute; discriminate|].
  split; [vm_compute; reflexivity|].
  split; [reflexivity|].
  split; [vm_compute; discriminate|].
  split; vm_compute; reflexivity.
Qed.

Lemma resume_round_trip_witness :
  exists c1 c' rest out,
    superstep (workflow demo_dumps PyJson.loads demo_llm demo_tool_error) "human"
      (Some "Refund approved, 5 business days.") refund_checkpoint = StepDone c1
    /\ channel_values c1
       = refund_history ++ [resolution_note "Refund approved, 5 business days."]
    /\ pending_interrupts c1 = []
    /\ fst (run_admin demo_dumps PyJson.loads demo_llm demo_tool_error refund_store "t1"
              "Refund approved, 5 business days.") !! "t1" = Some c'
    /\ snd (run_admin demo_dumps PyJson.loads demo_llm demo_tool_error refund_store "t1"
              "Refund approved, 5 business days.")
       = Resumed (PStr "refund request order 42.") out
    /\ channel_values c'
       = refund_history ++ resolution_note "Refund approved, 5 business days." :: rest
    /\ Forall ai_or_tool rest.
Proof.
  destruct (resume_round_trip demo_dumps PyJson.loads demo_llm demo_tool_error
              refund_store "t1" refund_checkpoint (PStr "refund request order 42.")
              "Refund approved, 5 business days." eq_refl refund_checkpoint_suspended)
    as (c1 & c' & rest & out & H1 & H2 & H3 & _ & _ & H5 & H6 & H7 & H8 & _).
  exists c1, c', rest, out. auto 10.
Defined.

Lemma run_admin_no_pending_interrupt_witness :
  has_interrupt (get_state (get_app demo_dumps PyJson.loads demo_llm demo_tool_error hours_store)
                   "t2") = false
  /\ run_admin demo_dumps PyJson.loads demo_llm demo_tool_error hours_store "t2" "ok"
     = (hours_store, NoPendingTasks).
Proof.
  split; [reflexivity|].
  apply (run_admin_no_pending_interrupt demo_dumps PyJson.loads demo_llm demo_tool_error
           hours_store "t2" "ok").
  reflexivity.
Defined.

Lemma at_most_one_pending_interrupt_witness :
  interrupt_count (get_state (get_app demo_dumps PyJson.loads demo_llm demo_tool_error
                                refund_store) "t1") <= 1
  /\ forall ans, exists c c1,
       refund_store !! "t1" = Some c
       /\ superstep (workflow demo_dumps PyJson.loads demo_llm demo_tool_error) "human"
            (Some ans) c = StepDone c1
       /\ pending_interrupts c1 = []
       /\ channel_values c1 = channel_values c ++ [resolution_note ans].
Proof.
  destruct (at_most_one_pending_interrupt demo_dumps PyJson.loads demo_llm demo_tool_error
              refund_store "t1" refund_store_observable) as (_ & _ & Hcount & Hres).
  split; [exact Hcount|].
  intros ans. destruct (Hres eq_refl ans) as (c & c1 & c' & q & H1 & _ & H3 & H4 & H5 & _).
  exists c, c1. auto.
Defined.

(** C8 fails on the program: for a thread id it has never seen, [run_admin]
    ends as it does for a known thread without pending interrupt, and
    [get_state] returns a snapshot. *)
Lemma never_seen_thread_not_distinguished :
  hours_store !! "t9" = None
  /\ hours_store !! "t2" <> None
  /\ snd (run_admin demo_dumps PyJson.loads demo_llm demo_tool_error hours_store "t9" "ok")
     = NoPendingTasks
  /\ ~ (snd (run_admin demo_dumps PyJson.loads demo_llm demo_tool_error hours_store "t9" "ok")
        <> snd (run_admin demo_dumps PyJson.loads demo_llm demo_tool_error hours_store "t2" "ok"))
  /\ get_state (get_app demo_dumps PyJson.loads demo_llm demo_tool_error hours_store) "t9"
     = {| values := None; next := []; tasks := [] |}.
Proof.
  split; [reflexivity|].
  split; [vm_compute; discriminate|].
  split; [reflexivity|].
  split; [intros H; apply H; reflexivity|reflexivity].
Qed.

Lemma never_seen_thread_is_no_error_witness :
  hours_store !! "t9" = None
  /\ get_state (get_app demo_dumps PyJson.loads demo_llm demo_tool_error hours_store) "t9"
     = {| values := None; next := []; tasks := [] |}
  /\ run_admin demo_dumps PyJson.loads demo_llm demo_tool_error hours_store "t9" "ok"
     = (hours_store, NoPendingTasks).
Proof.
  split; [reflexivity|].
  apply (never_seen_thread_is_no_error demo_dumps PyJson.loads demo_llm demo_tool_error
           hours_store "t9" "ok").
  reflexivity.
Defined.

Lemma direct_replies_history_witness :
  default [] (values (get_state
    (get_app demo_dumps PyJson.loads demo_llm demo_tool_error
       (fst (invoke_seq demo_dumps PyJson.loads demo_llm demo_tool_error ∅ "t2"
               ["What are your hours?"; "And on Sunday?"]))) "t2"))
  = [HumanMessage "What are your hours?" None; AIMessage "We are open 9 to 5." [];
     HumanMessage "And on Sunday?" None; AIMessage "We are open 9 to 5." []].
Proof.
  refine (proj2 (direct_replies_history demo_dumps PyJson.loads demo_llm demo_tool_error
                   "t2" [("What are your hours?", "We are open 9 to 5.");
                         ("And on Sunday?", "We are open 9 to 5.")] ∅ _)).
  split; [reflexivity|]. split; [reflexivity|]. exact I.
Defined.


(** ** The further properties on the scripted threads *)



Lemma refund_store_session :
  session demo_dumps PyJson.loads demo_llm demo_tool_error refund_store.
Proof.
  assert (E : fst (fst (fst (run_chat_turn demo_dumps PyJson.loads demo_llm demo_tool_error
                               ∅ "t1" 0 "I need a refund for order 42.")))
              = refund_store) by (vm_compute; reflexivity).
  rewrite <- E. apply session_chat, session_empty.
Defined.

Lemma human_node_returns_witness :
  {| messages := [resolution_note "Refund approved."] |} = {| messages := [] |}
  \/ exists ans content n i query,
       Some "Refund approved." = Some ans
       /\ last refund_history = Some (ToolMessage content n i)
       /\ escalation_request PyJson.loads content query
       /\ {| messages := [resolution_note "Refund approved."] |}
          = {| messages := [resolution_note ans] |}.
Proof.
  apply (human_node_returns PyJson.loads (Some "Refund approved.")
           {| messages := refund_history |}
           {| messages := [resolution_note "Refund approved."] |}).
  vm_compute. reflexivity.
Defined.

Lemma finished_invoke_ends_with_reply_witness :
  exists c content,
    checkpointer (fst (invoke (get_app demo_dumps PyJson.loads demo_llm demo_tool_error ∅)
                         [HumanMessage "What are your hours?" None] "t2")) !! "t2" = Some c
    /\ cp_next c = None
    /\ pending_interrupts c = []
    /\ last (channel_values c) = Some (AIMessage content []).
Proof.
  apply (finished_invoke_ends_with_reply demo_dumps PyJson.loads demo_llm demo_tool_error
           ∅ "t2" [HumanMessage "What are your hours?" None]).
  vm_compute. reflexivity.
Defined.

Lemma answered_question_is_closed_witness :
  (forall ans',
      run_admin demo_dumps PyJson.loads demo_llm demo_tool_error
        (fst (run_admin demo_dumps PyJson.loads demo_llm demo_tool_error refund_store "t1"
                "Refund approved, 5 business days.")) "t1" ans'
      = (fst (run_admin demo_dumps PyJson.loads demo_llm demo_tool_error refund_store "t1"
                "Refund approved, 5 business days."), NoPendingTasks))
  /\ exists c content,
      fst (run_admin demo_dumps PyJson.loads demo_llm demo_tool_error refund_store "t1"
             "Refund approved, 5 business days.") !! "t1" = Some c
      /\ cp_next c = None
      /\ last (channel_values c) = Some (AIMessage content []).
Proof.
  apply (answered_question_is_closed demo_dumps PyJson.loads demo_llm demo_tool_error
           refund_store "t1" "Refund approved, 5 business days."
           (PStr "refund request order 42.")).
  vm_compute. reflexivity.
Defined.

Lemma other_threads_untouched_witness :
  (forall count txt,
      fst (fst (fst (run_chat_turn demo_dumps PyJson.loads demo_llm demo_tool_error
                       hours_store "t1" count txt))) !! "t2"
      = hours_store !! "t2")
  /\ forall ans,
      fst (run_admin demo_dumps PyJson.loads demo_llm demo_tool_error hours_store "t1" ans)
        !! "t2"
      = hours_store !! "t2".
Proof.
  apply (other_threads_untouched demo_dumps PyJson.loads demo_llm demo_tool_error
           hours_store "t1" "t2").
  discriminate.
Defined.

Lemma session_message_kinds_witness :
  (msg_type (HumanMessage "I need a refund for order 42." None) = "human"
   /\ msg_name (HumanMessage "I need a refund for order 42." None) = None
   /\ display (HumanMessage "I need a refund for order 42." None)
      = Some (SystemLine (msg_content (HumanMessage "I need a refund for order 42." None))))
  \/ msg_type (HumanMessage "I need a refund for order 42." None) = "ai"
  \/ msg_type (HumanMessage "I need a refund for order 42." None) = "tool".
Proof.
  apply (session_message_kinds demo_dumps PyJson.loads demo_llm demo_tool_error
           refund_store refund_store_session "t1" refund_checkpoint
           (HumanMessage "I need a refund for order 42." None)).
  - reflexivity.
  - left.
Defined.

Lemma new_messages_shown_once_witness :
  snd (fst (run_chat_turn demo_dumps PyJson.loads demo_llm demo_tool_error
              (fst (run_admin demo_dumps PyJson.loads demo_llm demo_tool_error refund_store
                      "t1" "Refund approved."))
              "t1"
              (snd (fst (fst (run_chat_turn demo_dumps PyJson.loads demo_llm demo_tool_error
                                refund_store "t1" 1 "hello"))))
              "thanks"))
  = omap display [resolution_note "Refund approved.";
                  AIMessage "Done: SYSTEM: Admin resolved this: Refund approved." []].
Proof.
  refine (proj1 (proj2 (proj2
    (new_messages_shown_once demo_dumps PyJson.loads demo_llm demo_tool_error
       refund_store
       (fst (run_admin demo_dumps PyJson.loads demo_llm demo_tool_error refund_store
               "t1" "Refund approved."))
       "t1" 1 "hello" "thanks"
       [resolution_note "Refund approved.";
        AIMessage "Done: SYSTEM: Admin resolved this: Refund approved." []] _ _)))).
  - vm_compute. lia.
  - vm_compute. reflexivity.
Defined.

Lemma run_admin_reports_or_resumes_witness :
  (has_interrupt (get_state (get_app demo_dumps PyJson.loads demo_llm demo_tool_error
                               refund_store) "t1") = false
   /\ run_admin demo_dumps PyJson.loads demo_llm demo_tool_error refund_store "t1" "ok"
      = (refund_store, NoPendingTasks))
  \/ (has_interrupt (get_state (get_app demo_dumps PyJson.loads demo_llm demo_tool_error
                                  refund_store) "t1") = true
      /\ exists c query out,
          refund_store !! "t1" = Some c
          /\ suspended PyJson.loads c query
          /\ snd (run_admin demo_dumps PyJson.loads demo_llm demo_tool_error refund_store
                    "t1" "ok")
             = Resumed query out
          /\ (has_interrupt
                (get_state
                   (get_app demo_dumps PyJson.loads demo_llm demo_tool_error
                      (fst (run_admin demo_dumps PyJson.loads demo_llm demo_tool_error
                              refund_store "t1" "ok"))) "t1") = true
              <-> out = Interrupted)).
Proof.
  apply (run_admin_reports_or_resumes demo_dumps PyJson.loads demo_llm demo_tool_error
           refund_store "t1" "ok" refund_store_observable).
Defined.



